(** * A wake-word activated voice assistant: session machine and dispatcher

    Shallow embedding of [voice-assistant-code.py] (class [VoiceAssistant]).

    - Text is [string]; a character stands for a Unicode code point below
      256, and [lower] is Python's [str.lower] on that range.
    - Clock readings ([time.time()]) are integers, in seconds.
    - The object's mutable fields are a record threaded through a small
      state-and-exception monad that also accumulates the observable
      events (speech, console lines, log lines, browser launches).
    - What the outside world answers (microphone and recogniser, clock,
      encyclopedia, log file, random generator) is an explicit argument of
      the method that asks for it. *)

From Stdlib Require Import String Ascii List Bool ZArith Arith Lia.
Import ListNotations.
Local Open Scope string_scope.

(** ** Text *)

Module Text.

(** [needle in hay] of Python, for strings. *)
Fixpoint contains (needle hay : string) : bool :=
  prefix needle hay ||
  match hay with
  | EmptyString => false
  | String _ rest => contains needle rest
  end.

(** [str.lower] on one code point below 256: the letters A..Z and the
    Latin-1 capitals U+00C0..U+00DE (the multiplication sign U+00D7
    excepted) move up by 32, everything else is left alone. *)
Definition lower_char (c : ascii) : ascii :=
  let n := nat_of_ascii c in
  if (((65 <=? n) && (n <=? 90))
      || ((192 <=? n) && (n <=? 222) && negb (n =? 215)))%nat
  then ascii_of_nat (n + 32)
  else c.

Fixpoint lower (s : string) : string :=
  match s with
  | EmptyString => EmptyString
  | String c rest => String (lower_char c) (lower rest)
  end.

(** Truth value of a string in a condition: [if s:]. *)
Definition truthy (s : string) : bool := negb (s =? "").

(** [w] occurs in [t] up to letter case: some slice of [t] and [w] have the
    same lowercase form. *)
Definition occurs_ignoring_case (w t : string) : Prop :=
  exists pre mid post, t = pre ++ mid ++ post /\ lower mid = lower w.

(** [w] occurs in [t] verbatim. *)
Definition occurs (w t : string) : Prop :=
  exists pre post, t = pre ++ w ++ post.

End Text.
Import Text.

(** ** Observable events and exceptions *)

Inductive Exn : Type :=
| WaitTimeoutError
| UnknownValueError
| RequestError
| FileNotFoundError
| PermissionError
| UnicodeDecodeError
| JSONDecodeError
| DisambiguationError
| PageError
| LookupFailure                    (* any other Exception of the lookup *)
| IndexError
| KeyboardInterrupt.

Inductive Event : Type :=
| Say (text : string)              (* engine.say + runAndWait *)
| Print (line : string)            (* print *)
| LogAppend (line : string)        (* write to command_log.txt *)
| OpenBrowser (url : string)       (* webbrowser.open *)
| PrintError (e : Exn).            (* print(f"An error occurred: {e}") *)

(** [except Exception] catches everything but the interrupt. *)
Definition is_Exception (e : Exn) : bool :=
  match e with
  | KeyboardInterrupt => false
  | _ => true
  end.

Inductive Outcome (A : Type) : Type :=
| Returned (a : A)
| Raised (e : Exn).
Arguments Returned {A} a.
Arguments Raised {A} e.

(** ** Data model *)

Record Config : Type := {
  language : string;
  log_commands : bool;
  max_wikipedia_sentences : Z
}.

Record Responses : Type := {
  greetings : list string;
  jokes : list string;
  quotes : list string;
  preferences : list string;
  unknown_command : list string
}.

Record VoiceAssistant : Type := {
  wake_word : string;
  timeout : Z;
  is_active : bool;
  last_activation_time : Z;
  config : Config;
  responses : Responses
}.

Definition with_wake_word (w : string) (s : VoiceAssistant) : VoiceAssistant :=
  {| wake_word := w; timeout := timeout s; is_active := is_active s;
     last_activation_time := last_activation_time s;
     config := config s; responses := responses s |}.

Definition with_is_active (b : bool) (s : VoiceAssistant) : VoiceAssistant :=
  {| wake_word := wake_word s; timeout := timeout s; is_active := b;
     last_activation_time := last_activation_time s;
     config := config s; responses := responses s |}.

Definition with_last_activation_time (t : Z) (s : VoiceAssistant)
  : VoiceAssistant :=
  {| wake_word := wake_word s; timeout := timeout s; is_active := is_active s;
     last_activation_time := t;
     config := config s; responses := responses s |}.

(** ** The monad of methods *)

Definition Action (A : Type) : Type :=
  VoiceAssistant -> Outcome A * VoiceAssistant * list Event.

Definition ret {A} (a : A) : Action A := fun s => (Returned a, s, []).

Definition raise {A} (e : Exn) : Action A := fun s => (Raised e, s, []).

Definition bind {A B} (m : Action A) (k : A -> Action B) : Action B :=
  fun s =>
    match m s with
    | (Returned a, s1, tr1) =>
        match k a s1 with
        | (r, s2, tr2) => (r, s2, (tr1 ++ tr2)%list)
        end
    | (Raised e, s1, tr1) => (Raised e, s1, tr1)
    end.

(** [try: body / except ...]: the handler table answers [None] for an
    exception no clause catches. *)
Definition try_except {A} (body : Action A)
    (handlers : Exn -> option (Action A)) : Action A :=
  fun s =>
    match body s with
    | (Returned a, s1, tr1) => (Returned a, s1, tr1)
    | (Raised e, s1, tr1) =>
        match handlers e with
        | Some h =>
            match h s1 with
            | (r, s2, tr2) => (r, s2, (tr1 ++ tr2)%list)
            end
        | None => (Raised e, s1, tr1)
        end
    end.

Definition gets {A} (f : VoiceAssistant -> A) : Action A :=
  fun s => (Returned (f s), s, []).

Definition modify (f : VoiceAssistant -> VoiceAssistant) : Action unit :=
  fun s => (Returned tt, f s, []).

Definition emit (e : Event) : Action unit :=
  fun s => (Returned tt, s, [e]).

Declare Scope action_scope.
Delimit Scope action_scope with action.
Notation "x <- m ;; k" := (bind m (fun x => k))
  (at level 61, m at next level, right associativity) : action_scope.
Notation "m ;; k" := (bind m (fun _ => k))
  (at level 61, right associativity) : action_scope.
Local Open Scope action_scope.

Definition outcome_of {A} (r : Outcome A * VoiceAssistant * list Event)
  : Outcome A := fst (fst r).
Definition state_of {A} (r : Outcome A * VoiceAssistant * list Event)
  : VoiceAssistant := snd (fst r).
Definition trace_of {A} (r : Outcome A * VoiceAssistant * list Event)
  : list Event := snd r.

(** ** What the outside world answers *)

(** One capture by the microphone followed by one transcription:
    [recognizer.listen] then [recognizer.recognize_google]. *)
Inductive Heard : Type :=
| NoSpeech                         (* listen raises WaitTimeoutError *)
| Unintelligible                   (* recognize raises UnknownValueError *)
| ServiceDown                      (* recognize raises RequestError *)
| Transcript (text : string).      (* recognize returns text *)

(** A JSON file on disk, as [open] and [json.load] find it. *)
Inductive FileSource (A : Type) : Type :=
| Missing                          (* open raises FileNotFoundError *)
| Unreadable                       (* open raises PermissionError *)
| Undecodable                      (* f.read raises UnicodeDecodeError *)
| Malformed                        (* json.load raises JSONDecodeError *)
| Document (doc : A).              (* json.load returns the document *)
Arguments Missing {A}.
Arguments Unreadable {A}.
Arguments Undecodable {A}.
Arguments Malformed {A}.
Arguments Document {A} doc.

(** Answer of [wikipedia.summary]. *)
Inductive Lookup : Type :=
| Summary (text : string)
| Ambiguous                        (* DisambiguationError *)
| NoSuchPage                       (* PageError *)
| Broken.                          (* any other Exception *)

(** Fate of one append to [command_log.txt]. *)
Inductive LogSink : Type :=
| Writable
| WriteFails.

(** Everything one call of [process_command] may ask the world. *)
Record CommandEnv : Type := {
  now : Z;                                   (* time.time() *)
  log_stamp : string;                        (* strftime("%Y-%m-%d %H:%M:%S") *)
  log_sink : LogSink;
  sub_heard : Heard;                         (* the blocking sub-listen *)
  wikipedia : string -> Z -> Lookup;         (* topic, sentences *)
  rand : nat;                                (* the draw of random.choice *)
  clock_hhmm : string;                       (* strftime("%H:%M") *)
  today : string                             (* str(date.today()) *)
}.

(** Everything one turn of the loop of [run] may ask the world. *)
Record TickEnv : Type := {
  wake_heard : Heard;
  wake_now : Z;                              (* time.time() of the timeout test *)
  activation_now : Z;                        (* time.time() on activation *)
  command_heard : Heard;
  command_env : CommandEnv
}.

(** ** Loading *)

Definition default_config : Config :=
  {| language := "en-US";
     log_commands := true;
     max_wikipedia_sentences := 2 |}.

Definition default_responses : Responses :=
  {| greetings :=
       [ "I'm doing well, thank you!";
         "I'm just a program, but thanks for asking!";
         "Doing great! How about you?" ];
     jokes :=
       [ "Why do programmers prefer dark mode? Because light attracts bugs!";
         "I told my computer I needed a break, and now it won't stop sending me vacation ads.";
         "What's a computer's favorite snack? Microchips!";
         "How many programmers does it take to change a light bulb? None, that's a hardware problem.";
         "Why was the JavaScript developer sad? Because he didn't know how to Object.create(happiness);" ];
     quotes :=
       [ "The greatest glory in living lies not in never falling, but in rising every time we fall.";
         "The way to get started is to quit talking and begin doing.";
         "Your time is limited, so don't waste it living someone else's life.";
         "If life were predictable it would cease to be life, and be without flavor.";
         "Spread love everywhere you go. Let no one ever come to you without leaving happier.";
         "When you reach the end of your rope, tie a knot in it and hang on." ];
     preferences :=
       [ "I enjoy helping you with your questions.";
         "I love learning new things from you.";
         "I like to keep you entertained!" ];
     unknown_command :=
       [ "I'm sorry, I can't perform that command.";
         "I don't understand that instruction.";
         "That's beyond my capabilities right now." ] |}.

(** [with open(name, 'r') as f: return json.load(f)]. A document that
    parses is taken to carry the recognised keys with values of the
    types of the defaults. *)
Definition json_load {A} (src : FileSource A) : Outcome A :=
  match src with
  | Missing => Raised FileNotFoundError
  | Unreadable => Raised PermissionError
  | Undecodable => Raised UnicodeDecodeError
  | Malformed => Raised JSONDecodeError
  | Document doc => Returned doc
  end.

(** [except (FileNotFoundError, json.JSONDecodeError)]. *)
Definition load_or_default {A} (src : FileSource A) (default : A)
  : Outcome A :=
  match json_load src with
  | Returned doc => Returned doc
  | Raised FileNotFoundError => Returned default
  | Raised JSONDecodeError => Returned default
  | Raised e => Raised e
  end.

Definition _load_config (src : FileSource Config) : Outcome Config :=
  load_or_default src default_config.

Definition _load_responses (src : FileSource Responses) : Outcome Responses :=
  load_or_default src default_responses.

(** [__init__]; the speech engine and its voice are outside the model. *)
Definition init (wake_word0 : string) (timeout0 : Z)
    (config_file : FileSource Config)
    (responses_file : FileSource Responses) : Outcome VoiceAssistant :=
  match _load_config config_file with
  | Raised e => Raised e
  | Returned cfg =>
      match _load_responses responses_file with
      | Raised e => Raised e
      | Returned rsp =>
          Returned {| wake_word := lower wake_word0;
                      timeout := timeout0;
                      is_active := false;
                      last_activation_time := 0;
                      config := cfg;
                      responses := rsp |}
      end
  end.

(** ** Methods *)

Definition speak (text : string) : Action unit := emit (Say text).

Definition print (line : string) : Action unit := emit (Print line).

(** [recognizer.listen(source, ...)]: the captured audio is the capture
    itself. *)
Definition listen (h : Heard) : Action Heard :=
  match h with
  | NoSpeech => raise WaitTimeoutError
  | _ => ret h
  end.

(** [recognizer.recognize_google(audio, language=...)]. *)
Definition recognize_google (audio : Heard) (lang : string) : Action string :=
  match audio with
  | Transcript text => ret text
  | Unintelligible => raise UnknownValueError
  | ServiceDown => raise RequestError
  | NoSpeech => raise WaitTimeoutError
  end.

Definition timeout_notice : string := "Timing out due to inactivity.".

Definition listen_for_wake_word (h : Heard) (t : Z) : Action bool :=
  print "Listening for wake word..." ;;
  try_except
    (audio <- listen h ;;
     early <- try_except
       (lang <- gets (fun s => language (config s)) ;;
        text <- recognize_google audio lang ;;
        let text := lower text in
        print ("Heard: " ++ text) ;;
        w <- gets wake_word ;;
        if contains w text
        then print "Wake word detected!" ;; ret (Some true)
        else ret None)
       (fun e =>
          match e with
          | UnknownValueError => Some (ret None)
          | RequestError =>
              Some (print "Speech recognition service unavailable" ;;
                    ret (Some false))
          | _ => None
          end) ;;
     match early with
     | Some r => ret r
     | None =>
         active <- gets is_active ;;
         last <- gets last_activation_time ;;
         limit <- gets timeout ;;
         (if active && (limit <? t - last)%Z
          then print "Session timed out" ;;
               modify (with_is_active false) ;;
               speak timeout_notice
          else ret tt) ;;
         ret false
     end)
    (fun e =>
       match e with
       | WaitTimeoutError => Some (ret false)
       | _ => None
       end).

Definition listen_for_command (h : Heard) : Action string :=
  speak "How can I help you?" ;;
  print "Listening for command..." ;;
  try_except
    (audio <- listen h ;;
     try_except
       (lang <- gets (fun s => language (config s)) ;;
        query <- recognize_google audio lang ;;
        let query := lower query in
        print ("Command: " ++ query) ;;
        ret query)
       (fun e =>
          match e with
          | UnknownValueError =>
              Some (speak "Sorry, I could not understand that." ;; ret "")
          | RequestError =>
              Some (speak "Sorry, there was an error with the speech recognition service." ;;
                    ret "")
          | _ => None
          end))
    (fun e =>
       match e with
       | WaitTimeoutError => Some (speak "I didn't hear a command." ;; ret "")
       | _ => None
       end).

(** [random.choice(seq)] with the generator's draw [r]. *)
Definition random_choice (r : nat) (seq : list string) : Action string :=
  match seq with
  | [] => raise IndexError
  | _ => ret (nth (r mod List.length seq) seq "")
  end.

(** [wikipedia.summary(topic, sentences=n)]. *)
Definition wikipedia_summary (env : CommandEnv) (topic : string) (n : Z)
  : Action string :=
  match wikipedia env topic n with
  | Summary text => ret text
  | Ambiguous => raise DisambiguationError
  | NoSuchPage => raise PageError
  | Broken => raise LookupFailure
  end.

Definition ambiguous_notice : string :=
  "The topic is ambiguous, please be more specific.".
Definition no_page_notice : string :=
  "Unfortunately, there is no page with that title.".
Definition lookup_failed_notice : string :=
  "Sorry, something went wrong with the Wikipedia search.".

Definition _search_wikipedia (env : CommandEnv) (topic : string)
  : Action unit :=
  try_except
    (n <- gets (fun s => max_wikipedia_sentences (config s)) ;;
     summary <- wikipedia_summary env topic n ;;
     speak summary)
    (fun e =>
       match e with
       | DisambiguationError => Some (speak ambiguous_notice)
       | PageError => Some (speak no_page_notice)
       | _ => if is_Exception e
              then Some (speak lookup_failed_notice)
              else None
       end).

Definition _tell_time (env : CommandEnv) : Action unit :=
  let current_time := clock_hhmm env in
  speak ("The current time is " ++ current_time ++ ".").

Definition _tell_date (env : CommandEnv) : Action unit :=
  speak ("Today's date is " ++ today env ++ ".").

Definition _web_search (query : string) : Action unit :=
  speak ("Searching for " ++ query ++ " on Google.") ;;
  emit (OpenBrowser ("https://www.google.com/search?q=" ++ query)) ;;
  speak "Here are the search results.".

Definition _change_wake_word (env : CommandEnv) : Action unit :=
  speak "What would you like to set as the new wake word?" ;;
  new_wake_word <- listen_for_command (sub_heard env) ;;
  if truthy new_wake_word
  then modify (with_wake_word (lower new_wake_word)) ;;
       speak ("Wake word changed to " ++ new_wake_word)
  else ret tt.

(** The line written to the log: [f"{timestamp}: {command}\n"]. *)
Definition log_line (stamp command : string) : string :=
  stamp ++ ": " ++ command ++ String (ascii_of_nat 10) "".

(** [with open('command_log.txt', 'a') as f: ... f.write(...)]. *)
Definition append_to_log (env : CommandEnv) (command : string) : Action unit :=
  match log_sink env with
  | Writable => emit (LogAppend (log_line (log_stamp env) command))
  | WriteFails => raise PermissionError
  end.

Definition _log_command (env : CommandEnv) (command : string) : Action unit :=
  try_except
    (append_to_log env command)
    (fun e => if is_Exception e then Some (ret tt) else None).

Definition process_command (env : CommandEnv) (query : string) : Action bool :=
  modify (with_last_activation_time (now env)) ;;
  logging <- gets (fun s => log_commands (config s)) ;;
  (if logging then _log_command env query else ret tt) ;;
  if contains "exit" query || contains "goodbye" query || contains "bye" query
  then
    speak "Goodbye!" ;;
    modify (with_is_active false) ;;
    ret true
  else if contains "sleep" query || contains "deactivate" query
  then
    speak "Going to sleep. Say the wake word to activate me again." ;;
    modify (with_is_active false) ;;
    ret true
  else if contains "wikipedia" query
  then
    speak "What would you like to search on Wikipedia?" ;;
    topic <- listen_for_command (sub_heard env) ;;
    (if truthy topic then _search_wikipedia env topic else ret tt) ;;
    ret true
  else if contains "time" query
  then _tell_time env ;; ret true
  else if contains "date" query
  then _tell_date env ;; ret true
  else if contains "how are you" query
  then
    pool <- gets (fun s => greetings (responses s)) ;;
    line <- random_choice (rand env) pool ;;
    speak line ;;
    ret true
  else if contains "what is your name" query || contains "who are you" query
  then
    speak "I am your voice assistant, activated by saying the wake word." ;;
    ret true
  else if contains "search" query
  then
    speak "What do you want to search for on Google?" ;;
    search_query <- listen_for_command (sub_heard env) ;;
    (if truthy search_query then _web_search search_query else ret tt) ;;
    ret true
  else if contains "tell me a joke" query || contains "joke" query
  then
    pool <- gets (fun s => jokes (responses s)) ;;
    line <- random_choice (rand env) pool ;;
    speak line ;;
    ret true
  else if contains "give me a quote" query || contains "quote" query
  then
    pool <- gets (fun s => quotes (responses s)) ;;
    line <- random_choice (rand env) pool ;;
    speak line ;;
    ret true
  else if contains "what do you like to do" query
          || contains "your hobbies" query
  then
    pool <- gets (fun s => preferences (responses s)) ;;
    line <- random_choice (rand env) pool ;;
    speak line ;;
    ret true
  else if contains "change wake word" query
  then _change_wake_word env ;; ret true
  else
    pool <- gets (fun s => unknown_command (responses s)) ;;
    line <- random_choice (rand env) pool ;;
    speak line ;;
    ret true.

(** One turn of the [while True] loop of [run] (the closing
    [time.sleep(0.1)] has no effect on the model). *)
Definition tick (env : TickEnv) : Action unit :=
  active <- gets is_active ;;
  (if negb active
   then
     detected <- listen_for_wake_word (wake_heard env) (wake_now env) ;;
     if (detected : bool)
     then modify (with_is_active true) ;;
          modify (with_last_activation_time (activation_now env))
     else ret tt
   else ret tt) ;;
  active <- gets is_active ;;
  if active
  then
    command <- listen_for_command (command_heard env) ;;
    if truthy command
    then process_command (command_env env) command ;; ret tt
    else ret tt
  else ret tt.

(** The loop body repeated over the turns the operator lets it run; the
    operator's interrupt ends it. *)
Fixpoint loop (turns : list TickEnv) : Action unit :=
  match turns with
  | [] => raise KeyboardInterrupt
  | env :: rest => tick env ;; loop rest
  end.

Definition run (turns : list TickEnv) : Action unit :=
  w <- gets wake_word ;;
  speak ("Voice assistant initialized. Say '" ++ w ++ "' to activate me.") ;;
  try_except
    (loop turns)
    (fun e =>
       match e with
       | KeyboardInterrupt =>
           Some (print "Program terminated by user" ;; speak "Goodbye!")
       | _ =>
           Some (emit (PrintError e) ;;
                 speak "I encountered an error and need to shut down.")
       end).

(** ** The dispatcher as a priority table

    The specification's reading of [process_command]: an ordered table of
    (keywords, intent) rows, the first row with a keyword contained in
    the utterance wins, and one handler per intent. *)

Inductive Intent : Type :=
| Exit | Sleep | Wikipedia | Time | Date | HowAreYou | Name | Search
| Joke | Quote | Hobbies | ChangeWakeWord | Unknown.

Definition intent_table : list (list string * Intent) :=
  [ (["exit"; "goodbye"; "bye"], Exit);
    (["sleep"; "deactivate"], Sleep);
    (["wikipedia"], Wikipedia);
    (["time"], Time);
    (["date"], Date);
    (["how are you"], HowAreYou);
    (["what is your name"; "who are you"], Name);
    (["search"], Search);
    (["tell me a joke"; "joke"], Joke);
    (["give me a quote"; "quote"], Quote);
    (["what do you like to do"; "your hobbies"], Hobbies);
    (["change wake word"], ChangeWakeWord) ].

Definition row_matches (keywords : list string) (query : string) : bool :=
  existsb (fun k => contains k query) keywords.

Fixpoint first_match (table : list (list string * Intent)) (query : string)
  : Intent :=
  match table with
  | [] => Unknown
  | (keywords, i) :: rest =>
      if row_matches keywords query then i else first_match rest query
  end.

Definition select_intent (query : string) : Intent :=
  first_match intent_table query.

(** The rows that match at all, in table order. *)
Definition matching_intents (query : string) : list Intent :=
  map snd (filter (fun row => row_matches (fst row) query) intent_table).

Definition speak_random (env : CommandEnv)
    (category : Responses -> list string) : Action bool :=
  pool <- gets (fun s => category (responses s)) ;;
  line <- random_choice (rand env) pool ;;
  speak line ;;
  ret true.

Definition handler (env : CommandEnv) (i : Intent) : Action bool :=
  match i with
  | Exit =>
      speak "Goodbye!" ;; modify (with_is_active false) ;; ret true
  | Sleep =>
      speak "Going to sleep. Say the wake word to activate me again." ;;
      modify (with_is_active false) ;; ret true
  | Wikipedia =>
      speak "What would you like to search on Wikipedia?" ;;
      topic <- listen_for_command (sub_heard env) ;;
      (if truthy topic then _search_wikipedia env topic else ret tt) ;;
      ret true
  | Time => _tell_time env ;; ret true
  | Date => _tell_date env ;; ret true
  | HowAreYou => speak_random env greetings
  | Name =>
      speak "I am your voice assistant, activated by saying the wake word." ;;
      ret true
  | Search =>
      speak "What do you want to search for on Google?" ;;
      search_query <- listen_for_command (sub_heard env) ;;
      (if truthy search_query then _web_search search_query else ret tt) ;;
      ret true
  | Joke => speak_random env jokes
  | Quote => speak_random env quotes
  | Hobbies => speak_random env preferences
  | ChangeWakeWord => _change_wake_word env ;; ret true
  | Unknown => speak_random env unknown_command
  end.

(** What [process_command] does before it looks at the words. *)
Definition log_events (env : CommandEnv) (query : string) (s : VoiceAssistant)
  : list Event :=
  if log_commands (config s)
  then match log_sink env with
       | Writable => [LogAppend (log_line (log_stamp env) query)]
       | WriteFails => []
       end
  else [].

Definition dispatch_spec (env : CommandEnv) (query : string) : Action bool :=
  fun s =>
    match handler env (select_intent query)
            (with_last_activation_time (now env) s) with
    | (r, s', tr) => (r, s', (log_events env query s ++ tr)%list)
    end.

Definition is_log (e : Event) : bool :=
  match e with
  | LogAppend _ => true
  | _ => false
  end.

Definition is_say (text : string) (e : Event) : bool :=
  match e with
  | Say t => (t =? text)
  | _ => false
  end.

Definition count_events (p : Event -> bool) (tr : list Event) : nat :=
  List.length (filter p tr).

(** ** Sessions used in the examples *)

Definition session (w : string) (limit : Z) (active : bool) (last : Z)
  : VoiceAssistant :=
  {| wake_word := lower w; timeout := limit; is_active := active;
     last_activation_time := last;
     config := default_config; responses := default_responses |}.

Definition quiet_world (t : Z) : CommandEnv :=
  {| now := t; log_stamp := "2024-01-01 00:00:00"; log_sink := Writable;
     sub_heard := NoSpeech; wikipedia := fun _ _ => Broken; rand := 0;
     clock_hhmm := "00:00"; today := "2024-01-01" |}.

(** The turn at clock 0 in which the wake word is heard and no command
    follows. *)
Definition wake_turn : TickEnv :=
  {| wake_heard := Transcript "hey assistant"; wake_now := 0;
     activation_now := 0;
     command_heard := NoSpeech; command_env := quiet_world 0 |}.

(** A turn in which nobody speaks, with every clock reading [t]. *)
Definition silent_turn (t : Z) : TickEnv :=
  {| wake_heard := NoSpeech; wake_now := t; activation_now := t;
     command_heard := NoSpeech; command_env := quiet_world t |}.

(** ** Notions used in the statements *)

(** What [listen_for_command] returns and what it emits. *)
Definition command_reply (h : Heard) : string :=
  match h with
  | Transcript text => lower text
  | _ => ""
  end.

Definition command_events (h : Heard) : list Event :=
  [Say "How can I help you?"; Print "Listening for command..."] ++
  match h with
  | NoSpeech => [Say "I didn't hear a command."]
  | Unintelligible => [Say "Sorry, I could not understand that."]
  | ServiceDown =>
      [Say "Sorry, there was an error with the speech recognition service."]
  | Transcript text => [Print ("Command: " ++ lower text)]
  end.

Ltac split_on_keyword q k :=
  destruct (contains k q); cbn [orb]; [reflexivity|].

Ltac unfold_methods :=
  unfold handler, speak_random, _change_wake_word, _tell_time, _tell_date,
    _web_search, _search_wikipedia, wikipedia_summary, random_choice,
    speak, print, emit, modify, gets, ret, raise, bind, try_except.

(** The new wake word a change request installs. *)
Definition wake_word_after_change (env : CommandEnv) (s : VoiceAssistant)
  : string :=
  if truthy (command_reply (sub_heard env))
  then lower (command_reply (sub_heard env))
  else wake_word s.

(** The timeout test at the end of [listen_for_wake_word]. *)
Definition timed_out (t : Z) (s : VoiceAssistant) : bool :=
  is_active s && (timeout s <? t - last_activation_time s)%Z.

Definition after_timeout_test (t : Z) (s : VoiceAssistant) : VoiceAssistant :=
  if timed_out t s then with_is_active false s else s.

Definition timeout_events (t : Z) (s : VoiceAssistant) : list Event :=
  if timed_out t s then [Print "Session timed out"; Say timeout_notice] else [].

(** Whether a capture takes [listen_for_wake_word] to its timeout test. *)
Definition reaches_timeout_test (w : string) (h : Heard) : bool :=
  match h with
  | Unintelligible => true
  | Transcript text => negb (contains w (lower text))
  | NoSpeech | ServiceDown => false
  end.

Definition wake_poll (h : Heard) (t : Z) (s : VoiceAssistant)
  : Outcome bool * VoiceAssistant * list Event :=
  match h with
  | NoSpeech => (Returned false, s, [Print "Listening for wake word..."])
  | ServiceDown =>
      (Returned false, s,
       [Print "Listening for wake word...";
        Print "Speech recognition service unavailable"])
  | Unintelligible =>
      (Returned false, after_timeout_test t s,
       Print "Listening for wake word..." :: timeout_events t s)
  | Transcript text =>
      if contains (wake_word s) (lower text)
      then (Returned true, s,
            [Print "Listening for wake word...";
             Print ("Heard: " ++ lower text);
             Print "Wake word detected!"])
      else (Returned false, after_timeout_test t s,
            Print "Listening for wake word..."
            :: Print ("Heard: " ++ lower text) :: timeout_events t s)
  end.

(** The command half of a turn, taken when the session is active. *)
Definition command_half (env : TickEnv) : Action unit :=
  command <- listen_for_command (command_heard env) ;;
  if truthy command
  then process_command (command_env env) command ;; ret tt
  else ret tt.

Definition forget {A} (r : Outcome A) : Outcome unit :=
  match r with
  | Returned _ => Returned tt
  | Raised e => Raised e
  end.

(** The state in which the command half of a turn starts. *)
Definition after_wake_half (env : TickEnv) (s : VoiceAssistant)
  : VoiceAssistant :=
  if is_active s then s
  else match wake_heard env with
       | Transcript text =>
           if contains (wake_word s) (lower text)
           then with_last_activation_time (activation_now env)
                  (with_is_active true s)
           else s
       | _ => s
       end.

Definition wake_half_events (env : TickEnv) (s : VoiceAssistant)
  : list Event :=
  if is_active s then []
  else trace_of (wake_poll (wake_heard env) (wake_now env) s).

Definition settings_kept (s s' : VoiceAssistant) : Prop :=
  timeout s' = timeout s /\ config s' = config s
  /\ responses s' = responses s.

(** The stored wake word is its own lowercase form. *)
Definition lowercase_wake_word (s : VoiceAssistant) : Prop :=
  lower (wake_word s) = wake_word s.

(** A session that has been active for longer than its limit allows. *)
Definition overdue_session : VoiceAssistant :=
  session "hey assistant" 60 true 1000.

Definition with_log_sink (k : LogSink) (env : CommandEnv) : CommandEnv :=
  {| now := now env; log_stamp := log_stamp env; log_sink := k;
     sub_heard := sub_heard env; wikipedia := wikipedia env;
     rand := rand env; clock_hhmm := clock_hhmm env; today := today env |}.

Definition not_log (e : Event) : bool := negb (is_log e).

(** A session that does not log, and a turn in which it is told a joke. *)
Definition muted_session : VoiceAssistant :=
  {| wake_word := "hey assistant"; timeout := 60; is_active := true;
     last_activation_time := 0;
     config := {| language := "en-US"; log_commands := false;
                  max_wikipedia_sentences := 2 |};
     responses := default_responses |}.

Definition joke_turn (t : Z) : TickEnv :=
  {| wake_heard := NoSpeech; wake_now := t; activation_now := t;
     command_heard := Transcript "Tell me a joke";
     command_env := quiet_world t |}.

(** A world in which the sub-listen hears [reply]. *)
Definition world_replying (reply : string) : CommandEnv :=
  {| now := 5; log_stamp := "2024-01-01 00:00:05"; log_sink := Writable;
     sub_heard := Transcript reply; wikipedia := fun _ _ => Broken;
     rand := 0; clock_hhmm := "00:00"; today := "2024-01-01" |}.

(** An active turn in which the command [exit please] is heard. *)
Definition exit_turn (t : Z) : TickEnv :=
  {| wake_heard := NoSpeech; wake_now := t; activation_now := t;
     command_heard := Transcript "Exit please";
     command_env := quiet_world t |}.

(** What [_search_wikipedia] says for each answer of the service. *)
Definition lookup_speech (answer : Lookup) : string :=
  match answer with
  | Summary text => text
  | Ambiguous => ambiguous_notice
  | NoSuchPage => no_page_notice
  | Broken => lookup_failed_notice
  end.

(** Number of full stops of a text, and a service that answers with one
    sentence when at least one is asked for. *)
Fixpoint full_stops (text : string) : Z :=
  match text with
  | EmptyString => 0
  | String c rest => (if Ascii.eqb c "." then 1 else 0) + full_stops rest
  end.

Definition one_sentence_world : CommandEnv :=
  {| now := 5; log_stamp := "2024-01-01 00:00:05"; log_sink := Writable;
     sub_heard := Transcript "Rocq";
     wikipedia := fun _ n =>
       if (1 <=? n)%Z then Summary "Rocq is a proof assistant." else Broken;
     rand := 0; clock_hhmm := "00:00"; today := "2024-01-01" |}.


(** A turn in which the wake word is said, then the command to change it,
    then the new word. *)
Definition rename_turn : TickEnv :=
  {| wake_heard := Transcript "Hey Assistant"; wake_now := 1;
     activation_now := 1;
     command_heard := Transcript "Change wake word";
     command_env := world_replying "Computer" |}.

(** ** Further notions: events by kind, intents by effect *)

Definition is_speech (e : Event) : bool :=
  match e with
  | Say _ => true
  | _ => false
  end.

Definition is_browser (e : Event) : bool :=
  match e with
  | OpenBrowser _ => true
  | _ => false
  end.

Definition is_print (line : string) (e : Event) : bool :=
  match e with
  | Print l => (l =? line)
  | _ => false
  end.

(** The intents whose handler ends the session. *)
Definition deactivates (i : Intent) : bool :=
  match i with
  | Exit | Sleep => true
  | _ => false
  end.

(** The response category an intent draws its answer from, if it draws. *)
Definition pool_of (i : Intent) : option (Responses -> list string) :=
  match i with
  | HowAreYou => Some greetings
  | Joke => Some jokes
  | Quote => Some quotes
  | Hobbies => Some preferences
  | Unknown => Some unknown_command
  | _ => None
  end.

Definition categories_nonempty (r : Responses) : Prop :=
  greetings r <> [] /\ jokes r <> [] /\ quotes r <> []
  /\ preferences r <> [] /\ unknown_command r <> [].

(** Whether a capture is a transcript containing the wake word [w]. *)
Definition wake_word_heard (w : string) (h : Heard) : bool :=
  match h with
  | Transcript text => contains w (lower text)
  | _ => false
  end.

(** Whether a file lets [json.load] reach a result or a caught error. *)
Definition loadable {A} (src : FileSource A) : bool :=
  match src with
  | Unreadable | Undecodable => false
  | _ => true
  end.

(** The keyword table without the keywords that contain another keyword
    of their own row. *)
Definition reduced_table : list (list string * Intent) :=
  [ (["exit"; "bye"], Exit);
    (["sleep"; "deactivate"], Sleep);
    (["wikipedia"], Wikipedia);
    (["time"], Time);
    (["date"], Date);
    (["how are you"], HowAreYou);
    (["what is your name"; "who are you"], Name);
    (["search"], Search);
    (["joke"], Joke);
    (["quote"], Quote);
    (["what do you like to do"; "your hobbies"], Hobbies);
    (["change wake word"], ChangeWakeWord) ].

Definition announcement (w : string) : string :=
  "Voice assistant initialized. Say '" ++ w ++ "' to activate me.".

Definition shutdown_notice : string :=
  "I encountered an error and need to shut down.".

(** How [run] ends, by the exception that leaves its loop. *)
Definition closing_events (e : Exn) : list Event :=
  match e with
  | KeyboardInterrupt => [Print "Program terminated by user"; Say "Goodbye!"]
  | _ => [PrintError e; Say shutdown_notice]
  end.

(** [main]: construct the assistant with the settings written there, then
    run it. An exception of the constructor leaves [main] uncaught. *)
Definition main (config_file : FileSource Config)
    (responses_file : FileSource Responses) (turns : list TickEnv)
  : Outcome unit * list Event :=
  match init "hey assistant" 60 config_file responses_file with
  | Raised e => (Raised e, [])
  | Returned assistant =>
      (outcome_of (run turns assistant), trace_of (run turns assistant))
  end.

(** A session whose joke category is empty, as a responses file may make
    it. *)
Definition jokeless_session : VoiceAssistant :=
  {| wake_word := "hey assistant"; timeout := 60; is_active := true;
     last_activation_time := 0;
     config := default_config;
     responses := {| greetings := ["Fine."]; jokes := [];
                     quotes := ["Quote."]; preferences := ["Helping."];
                     unknown_command := ["Sorry."] |} |}.

(** A world in which the sub-listen hears silence and the draw is [r]. *)
Definition world_drawing (r : nat) : CommandEnv :=
  {| now := 5; log_stamp := "2024-01-01 00:00:05"; log_sink := Writable;
     sub_heard := NoSpeech; wikipedia := fun _ _ => Broken;
     rand := r; clock_hhmm := "00:00"; today := "2024-01-01" |}.

(** An idle turn in which the wake word is heard at clock [t], followed
    by [command]. *)
Definition waking_turn (t : Z) (command : Heard) : TickEnv :=
  {| wake_heard := Transcript "Hey Assistant"; wake_now := t;
     activation_now := t;
     command_heard := command; command_env := quiet_world (t + 1) |}.

Ltac handler_cases env :=
  try (destruct (sub_heard env) as [| | |text]; cbn;
       try destruct (truthy (lower text)));
  try destruct (wikipedia env _ _);
  cbn;
  try match goal with
      | |- context [match ?l with [] => _ | _ => _ end] => destruct l
      end;
  cbn.

(** ** Letter case, spelled out

    What "the same up to letter case" means, written without [lower]: the
    capitals and the small letters of the alphabet side by side, then the
    accented capitals U+00C0..U+00DE (without the multiplication sign
    U+00D7), each 32 below its small letter. *)

Definition capitals : string := "ABCDEFGHIJKLMNOPQRSTUVWXYZ".

Definition smalls : string := "abcdefghijklmnopqrstuvwxyz".

Definition accented_capitals : list nat := seq 192 23 ++ seq 216 7.

Definition case_pairs : list (ascii * ascii) :=
  combine (list_ascii_of_string capitals) (list_ascii_of_string smalls)
  ++ map (fun n => (ascii_of_nat n, ascii_of_nat (n + 32))) accented_capitals.

(** Two characters are the same letter: the same character, or a capital
    and its small letter, in either order. *)
Definition same_letter (a b : ascii) : bool :=
  Ascii.eqb a b
  || existsb (fun p => (Ascii.eqb a (fst p) && Ascii.eqb b (snd p))
                       || (Ascii.eqb a (snd p) && Ascii.eqb b (fst p)))
       case_pairs.

(** Two texts of the same length whose characters are the same letters,
    position by position. *)
Fixpoint equal_up_to_case (a b : string) : bool :=
  match a, b with
  | EmptyString, EmptyString => true
  | String x a', String y b' => same_letter x y && equal_up_to_case a' b'
  | _, _ => false
  end.

(** [w] occurs in [t] up to letter case: [t] has a slice as long as [w]
    that spells [w] letter by letter. *)
Definition occurs_up_to_case (w t : string) : Prop :=
  exists pre mid post,
    t = pre ++ mid ++ post /\ equal_up_to_case mid w = true.

(** The 256 characters. *)
Definition all_ascii : list ascii := map ascii_of_nat (seq 0 256).

(** ** Basic facts *)

Section TextFacts.

Lemma lower_char_idempotent (c : ascii) : lower_char (lower_char c) = lower_char c.
Proof.
  destruct c as [[] [] [] [] [] [] [] []]; reflexivity.
Qed.

Lemma lower_idempotent (s : string) : lower (lower s) = lower s.
Proof.
  induction s as [|c s IH]; cbn; [reflexivity|].
  now rewrite lower_char_idempotent, IH.
Qed.

Lemma lower_append (a b : string) : lower (a ++ b) = lower a ++ lower b.
Proof.
  induction a as [|c a IH]; cbn; [reflexivity|]. now rewrite IH.
Qed.

(** A split of [lower t] comes from a split of [t]. *)
Lemma lower_split (t a b : string) :
  lower t = a ++ b ->
  exists t1 t2, t = t1 ++ t2 /\ lower t1 = a /\ lower t2 = b.
Proof.
  revert t; induction a as [|c a IH]; intros t H.
  - exists "", t. cbn in *. auto.
  - destruct t as [|d t]; cbn in H; [discriminate|].
    injection H as Hc Ht.
    destruct (IH _ Ht) as (t1 & t2 & -> & <- & <-).
    exists (String d t1), t2. cbn. now rewrite Hc.
Qed.

Lemma prefix_iff (p s : string) :
  prefix p s = true <-> exists post, s = p ++ post.
Proof.
  revert s; induction p as [|c p IH]; intros s.
  - destruct s; cbn; split; eauto.
  - destruct s as [|d s]; cbn.
    + split; [discriminate|]. intros [post H]; discriminate.
    + destruct (ascii_dec c d) as [->|Hne].
      * rewrite IH. split; intros [post H]; exists post.
        -- now rewrite H.
        -- now injection H.
      * split; [discriminate|]. intros [post H]. injection H as H1 _.
        congruence.
Qed.

Lemma contains_iff (w t : string) : contains w t = true <-> occurs w t.
Proof.
  unfold occurs. induction t as [|d t IH].
  - cbn [contains]. rewrite orb_false_r, prefix_iff. split.
    + intros [post H]. exists "", post. exact H.
    + intros (pre & post & H). destruct pre; cbn in H; [eauto|discriminate].
  - cbn [contains]. rewrite orb_true_iff, prefix_iff, IH. split.
    + intros [[post H] | (pre & post & H)].
      * exists "", post. exact H.
      * exists (String d pre), post. cbn. now rewrite H.
    + intros (pre & post & H). destruct pre as [|c pre]; cbn in H.
      * left. eauto.
      * right. injection H as _ H. eauto.
Qed.

(** Containment of lowercase forms is occurrence up to letter case. *)
Lemma contains_lower_iff (w t : string) :
  contains (lower w) (lower t) = true <-> occurs_ignoring_case w t.
Proof.
  rewrite contains_iff. unfold occurs, occurs_ignoring_case. split.
  - intros (a & b & H).
    destruct (lower_split _ _ _ H) as (pre & rest & -> & <- & Hrest).
    destruct (lower_split _ _ _ Hrest) as (mid & post & -> & Hmid & <-).
    now exists pre, mid, post.
  - intros (pre & mid & post & -> & Hmid).
    exists (lower pre), (lower post).
    now rewrite !lower_append, Hmid.
Qed.

End TextFacts.

(** ** The methods, run *)

Lemma listen_for_command_run (h : Heard) (s : VoiceAssistant) :
  listen_for_command h s = (Returned (command_reply h), s, command_events h).
Proof. destruct h; reflexivity. Qed.

(** The opening of [process_command], whatever follows it. *)
Lemma prologue_run (env : CommandEnv) (query : string) (k : Action bool)
    (s : VoiceAssistant) :
  (modify (with_last_activation_time (now env)) ;;
   logging <- gets (fun s => log_commands (config s)) ;;
   (if logging then _log_command env query else ret tt) ;;
   k) s
  = match k (with_last_activation_time (now env) s) with
    | (r, s', tr) => (r, s', (log_events env query s ++ tr)%list)
    end.
Proof.
  unfold bind, modify, gets, log_events, _log_command, try_except,
    append_to_log, emit, raise, ret.
  cbn. destruct (log_commands (config s)); [destruct (log_sink env)|];
    cbn; destruct (k _) as [[r s'] tr]; reflexivity.
Qed.

Lemma process_command_refines (env : CommandEnv) (query : string)
    (s : VoiceAssistant) :
  process_command env query s = dispatch_spec env query s.
Proof.
  unfold process_command, dispatch_spec. rewrite prologue_run.
  set (s1 := with_last_activation_time (now env) s).
  match goal with
  | |- match ?k s1 with _ => _ end = match ?h s1 with _ => _ end =>
      enough (E : k s1 = h s1) by (rewrite E; reflexivity)
  end.
  unfold select_intent.
  cbn [intent_table first_match row_matches existsb].
  rewrite !orb_false_r.
  split_on_keyword query "exit".
  split_on_keyword query "goodbye".
  split_on_keyword query "bye".
  split_on_keyword query "sleep".
  split_on_keyword query "deactivate".
  split_on_keyword query "wikipedia".
  split_on_keyword query "time".
  split_on_keyword query "date".
  split_on_keyword query "how are you".
  split_on_keyword query "what is your name".
  split_on_keyword query "who are you".
  split_on_keyword query "search".
  split_on_keyword query "tell me a joke".
  split_on_keyword query "joke".
  split_on_keyword query "give me a quote".
  split_on_keyword query "quote".
  split_on_keyword query "what do you like to do".
  split_on_keyword query "your hobbies".
  split_on_keyword query "change wake word".
  reflexivity.
Qed.

Lemma handler_frame (env : CommandEnv) (i : Intent) (s : VoiceAssistant) :
  let r := handler env i s in
  last_activation_time (state_of r) = last_activation_time s
  /\ timeout (state_of r) = timeout s
  /\ config (state_of r) = config s
  /\ responses (state_of r) = responses s
  /\ filter is_log (trace_of r) = []
  /\ wake_word (state_of r)
     = match i with
       | ChangeWakeWord => wake_word_after_change env s
       | _ => wake_word s
       end
  /\ (outcome_of r = Returned true \/ outcome_of r = Raised IndexError).
Proof.
  destruct s as [w l a t c [g j q p u]].
  destruct i; unfold_methods; rewrite ?listen_for_command_run.
  all: unfold wake_word_after_change.
  all: try (destruct (sub_heard env) as [| | |text]; cbn;
            try destruct (truthy (lower text))).
  all: try destruct (wikipedia env _ _).
  all: cbn.
  all: try match goal with
         | |- context [match ?l with [] => _ | _ => _ end] => destruct l
         end.
  all: cbn; auto 10.
Qed.

(** [process_command], run: the clock is stored, the log line (if any) is
    written, and the handler of the selected intent runs from there. *)
Lemma process_command_run (env : CommandEnv) (query : string)
    (s : VoiceAssistant) :
  let r := handler env (select_intent query)
             (with_last_activation_time (now env) s) in
  process_command env query s
  = (outcome_of r, state_of r, (log_events env query s ++ trace_of r)%list).
Proof.
  cbn zeta. rewrite process_command_refines. unfold dispatch_spec.
  now destruct (handler _ _ _) as [[r s'] tr].
Qed.

Lemma listen_for_wake_word_run (h : Heard) (t : Z) (s : VoiceAssistant) :
  listen_for_wake_word h t s = wake_poll h t s.
Proof.
  unfold listen_for_wake_word, wake_poll, after_timeout_test, timeout_events,
    timed_out.
  destruct h as [| | |text]; unfold_methods; cbn; try reflexivity.
  - destruct (is_active s && _); reflexivity.
  - destruct (contains (wake_word s) (lower text)); [reflexivity|].
    destruct (is_active s && _); reflexivity.
Qed.

(** A poll heard while the session is not active changes nothing. *)
Lemma after_timeout_test_idle (t : Z) (s : VoiceAssistant) :
  is_active s = false ->
  after_timeout_test t s = s /\ timeout_events t s = [].
Proof.
  unfold after_timeout_test, timeout_events, timed_out. now intros ->.
Qed.

Lemma command_half_run (env : TickEnv) (s : VoiceAssistant) :
  let h := command_heard env in
  command_half env s
  = if truthy (command_reply h)
    then let r := process_command (command_env env) (command_reply h) s in
         (forget (outcome_of r), state_of r,
          (command_events h ++ trace_of r)%list)
    else (Returned tt, s, command_events h).
Proof.
  cbn zeta. unfold command_half. unfold bind at 1.
  rewrite listen_for_command_run.
  destruct (truthy _); [|unfold ret; now rewrite app_nil_r].
  unfold bind, ret.
  destruct (process_command _ _ s) as [[[b|e] s'] tr]; cbn;
    now rewrite ?app_nil_r.
Qed.

Lemma tick_run (env : TickEnv) (s : VoiceAssistant) :
  let s1 := after_wake_half env s in
  tick env s
  = if is_active s1
    then let r := command_half env s1 in
         (outcome_of r, state_of r, (wake_half_events env s ++ trace_of r)%list)
    else (Returned tt, s1, wake_half_events env s).
Proof.
  cbn zeta. unfold tick, after_wake_half, wake_half_events.
  fold (command_half env).
  unfold bind at 1. cbn [gets].
  destruct (is_active s) eqn:Ha; cbn [negb].
  - unfold bind, gets, ret. cbn. rewrite Ha.
    now destruct (command_half env s) as [[r s'] tr].
  - unfold bind at 1. unfold bind at 1.
    rewrite listen_for_wake_word_run.
    destruct (after_timeout_test_idle (wake_now env) s Ha) as [Es Ee].
    destruct (wake_heard env) as [| | |text]; unfold wake_poll;
      rewrite ?Es, ?Ee; cbn; rewrite ?Ha; try reflexivity.
    destruct (contains (wake_word s) (lower text)); cbn.
    + unfold bind, gets, modify. cbn.
      now destruct (command_half env _) as [[r s'] tr].
    + rewrite ?Es, ?Ee. cbn. now rewrite Ha.
Qed.

(** ** What no method touches *)

Lemma filter_is_log_app (a b : list Event) :
  filter is_log (a ++ b) = (filter is_log a ++ filter is_log b)%list.
Proof. apply filter_app. Qed.

Lemma log_events_all_log (env : CommandEnv) (q : string) (s : VoiceAssistant) :
  filter is_log (log_events env q s) = log_events env q s.
Proof.
  unfold log_events. destruct (log_commands _); [destruct (log_sink env)|];
    reflexivity.
Qed.

Lemma process_command_frame (env : CommandEnv) (q : string)
    (s : VoiceAssistant) :
  let r := process_command env q s in
  settings_kept s (state_of r)
  /\ last_activation_time (state_of r) = now env
  /\ filter is_log (trace_of r) = log_events env q s
  /\ wake_word (state_of r)
     = match select_intent q with
       | ChangeWakeWord => wake_word_after_change env s
       | _ => wake_word s
       end
  /\ (outcome_of r = Returned true \/ outcome_of r = Raised IndexError).
Proof.
  cbn zeta. rewrite process_command_run.
  destruct (handler_frame env (select_intent q)
              (with_last_activation_time (now env) s))
    as (Hl & Ht & Hc & Hr & Hlog & Hw & Ho).
  unfold settings_kept, state_of, trace_of, outcome_of in *. cbn [fst snd] in *.
  rewrite Hl, Ht, Hc, Hr, Hw, filter_is_log_app, Hlog, app_nil_r,
    log_events_all_log.
  repeat split; assumption.
Qed.


Lemma command_events_no_log (h : Heard) : filter is_log (command_events h) = [].
Proof. now destruct h. Qed.

Lemma wake_half_events_no_log (env : TickEnv) (s : VoiceAssistant) :
  filter is_log (wake_half_events env s) = [].
Proof.
  unfold wake_half_events, wake_poll, timeout_events.
  destruct (is_active s); [reflexivity|].
  destruct (wake_heard env) as [| | |text]; cbn; try reflexivity.
  - now destruct (timed_out _ _).
  - destruct (contains _ _); cbn; [reflexivity|]. now destruct (timed_out _ _).
Qed.

Lemma after_wake_half_frame (env : TickEnv) (s : VoiceAssistant) :
  settings_kept s (after_wake_half env s)
  /\ wake_word (after_wake_half env s) = wake_word s.
Proof.
  unfold after_wake_half, settings_kept.
  destruct (is_active s); [auto|].
  destruct (wake_heard env) as [| | |text]; auto.
  destruct (contains _ _); cbn; auto.
Qed.

Lemma tick_frame (env : TickEnv) (s : VoiceAssistant) :
  let r := tick env s in
  settings_kept s (state_of r)
  /\ (lowercase_wake_word s -> lowercase_wake_word (state_of r))
  /\ (log_commands (config s) = false -> filter is_log (trace_of r) = []).
Proof.
  cbn zeta. rewrite tick_run.
  destruct (after_wake_half_frame env s) as ((Ht & Hc & Hr) & Hw).
  set (s1 := after_wake_half env s) in *.
  destruct (is_active s1).
  2:{ unfold settings_kept, lowercase_wake_word, state_of, trace_of. cbn.
      rewrite Hw. repeat split; auto.
      intros _. apply wake_half_events_no_log. }
  rewrite command_half_run.
  set (h := command_heard env).
  destruct (truthy (command_reply h)).
  - destruct (process_command_frame (command_env env) (command_reply h) s1)
      as ((Ht' & Hc' & Hr') & _ & Hlog & Hw' & _).
    unfold settings_kept, lowercase_wake_word, state_of, trace_of in *.
    cbn [fst snd] in *.
    rewrite Ht', Hc', Hr', Hw'. repeat split; auto.
    + intros Hlow. destruct (select_intent _); rewrite ?Hw; auto.
      unfold wake_word_after_change.
      destruct (truthy _); [apply lower_idempotent | now rewrite Hw].
    + intros Hoff.
      rewrite filter_is_log_app, wake_half_events_no_log.
      rewrite filter_is_log_app, command_events_no_log, Hlog.
      unfold log_events. now rewrite Hc, Hoff.
  - unfold settings_kept, lowercase_wake_word, state_of, trace_of.
    cbn [fst snd]. rewrite Hw. repeat split; auto.
    intros _.
    now rewrite filter_is_log_app, wake_half_events_no_log,
      command_events_no_log.
Qed.

(** ** The loop *)

Lemma loop_cons (env : TickEnv) (rest : list TickEnv) (s : VoiceAssistant) :
  loop (env :: rest) s
  = match tick env s with
    | (Returned _, s1, tr1) =>
        (outcome_of (loop rest s1), state_of (loop rest s1),
         (tr1 ++ trace_of (loop rest s1))%list)
    | (Raised e, s1, tr1) => (Raised e, s1, tr1)
    end.
Proof.
  cbn [loop]. unfold bind.
  destruct (tick env s) as [[[u|e] s1] tr1]; [|reflexivity].
  now destruct (loop rest s1) as [[r s2] tr2].
Qed.

Lemma loop_frame (turns : list TickEnv) (s : VoiceAssistant) :
  let r := loop turns s in
  settings_kept s (state_of r)
  /\ (lowercase_wake_word s -> lowercase_wake_word (state_of r))
  /\ (log_commands (config s) = false -> filter is_log (trace_of r) = []).
Proof.
  cbn zeta. revert s. induction turns as [|env rest IH]; intros s.
  - unfold settings_kept. cbn. auto.
  - rewrite loop_cons.
    destruct (tick_frame env s) as ((Ht & Hc & Hr) & Hw & Hlog).
    destruct (tick env s) as [[[u|e] s1] tr1];
      unfold settings_kept, state_of, trace_of in *; cbn [fst snd] in *.
    + destruct (IH s1) as ((Ht' & Hc' & Hr') & Hw' & Hlog').
      unfold settings_kept, state_of, trace_of in *.
      rewrite Ht', Hc', Hr'. repeat split; auto.
      intros Hoff. rewrite filter_is_log_app, Hlog, Hlog'; auto.
      now rewrite Hc.
    + repeat split; auto.
Qed.

(** A turn of an active session in which no command is understood. *)
Lemma tick_active_no_command (env : TickEnv) (s : VoiceAssistant) :
  is_active s = true ->
  command_reply (command_heard env) = "" ->
  tick env s = (Returned tt, s, command_events (command_heard env)).
Proof.
  intros Ha Hq. rewrite tick_run.
  assert (E : after_wake_half env s = s)
    by (unfold after_wake_half; now rewrite Ha).
  rewrite E. unfold wake_half_events. rewrite Ha, command_half_run, Hq.
  reflexivity.
Qed.

Lemma command_events_no_notice (h : Heard) :
  command_reply h = "" ->
  count_events (is_say timeout_notice) (command_events h) = 0.
Proof. destruct h; reflexivity. Qed.

Lemma count_events_app (p : Event -> bool) (a b : list Event) :
  count_events p (a ++ b) = count_events p a + count_events p b.
Proof. unfold count_events. now rewrite filter_app, length_app. Qed.

(** ** Session timeout in the loop *)

(** C1 (the code departs from it). While the session is active, [run] never
    calls [listen_for_wake_word], the only place where the timeout is
    tested: over any number of turns in which no command is understood, and
    whatever the clock reads, the session stays exactly as it was (still
    active, same activation time) and only the command prompts are
    emitted, never the timeout notice. *)
Theorem active_session_never_times_out (turns : list TickEnv)
    (s : VoiceAssistant) :
  is_active s = true ->
  Forall (fun env => command_reply (command_heard env) = "") turns ->
  let r := loop turns s in
  outcome_of r = Raised KeyboardInterrupt
  /\ state_of r = s
  /\ is_active (state_of r) = true
  /\ trace_of r = flat_map (fun env => command_events (command_heard env)) turns
  /\ count_events (is_say timeout_notice) (trace_of r) = 0.
Proof.
  intros Ha Hq. cbn zeta. induction Hq as [|env rest Henv Hrest IH].
  - cbn. auto.
  - rewrite loop_cons, (tick_active_no_command env s Ha Henv).
    destruct IH as (Ho & Hs & _ & Htr & Hn).
    unfold outcome_of, state_of, trace_of in *. cbn [fst snd flat_map] in *.
    rewrite Ho, Hs, Htr, Ha. repeat split.
    rewrite count_events_app, command_events_no_notice by assumption.
    now rewrite <- Htr.
Qed.

(** The session woken at clock 0 with a limit of 60 is still active after
    silent turns at clocks 100, 200 and 300. *)
Lemma active_session_never_times_out_witness :
  init "hey assistant" 60 Missing Missing
  = Returned (session "hey assistant" 60 false 0)
  /\ state_of (tick wake_turn (session "hey assistant" 60 false 0))
     = session "hey assistant" 60 true 0
  /\ state_of (loop (map silent_turn [100; 200; 300]%Z)
                 (session "hey assistant" 60 true 0))
     = session "hey assistant" 60 true 0
  /\ count_events (is_say timeout_notice)
       (trace_of (loop (map silent_turn [100; 200; 300]%Z)
                    (session "hey assistant" 60 true 0))) = 0.
Proof.
  split; [reflexivity|]. split; [reflexivity|].
  pose proof (active_session_never_times_out
                (map silent_turn [100; 200; 300]%Z)
                (session "hey assistant" 60 true 0)
                eq_refl) as H.
  destruct H as (_ & Hs & _ & _ & Hn).
  - repeat constructor.
  - split; assumption.
Defined.

(** ** Dispatch *)

Lemma first_match_is_head (table : list (list string * Intent)) (q : string) :
  first_match table q
  = hd Unknown
      (map snd (filter (fun row => row_matches (fst row) q) table)).
Proof.
  induction table as [|[keywords i] rest IH]; [reflexivity|].
  cbn [first_match filter fst].
  destruct (row_matches keywords q); [reflexivity | exact IH].
Qed.

(** C2. [process_command] is the priority table: after the common opening
    it runs the handler of the first row, in the listed order, one of whose
    keywords the utterance contains (the fallback when there is none), and
    nothing else. In "tell me a joke then exit" both the exit row and the
    joke row match, and the exit handler is the one that runs. *)
Theorem dispatch_first_match_wins :
  (forall env query s,
     process_command env query s = dispatch_spec env query s)
  /\ (forall query,
        select_intent query = hd Unknown (matching_intents query))
  /\ map snd intent_table
     = [Exit; Sleep; Wikipedia; Time; Date; HowAreYou; Name; Search;
        Joke; Quote; Hobbies; ChangeWakeWord]
  /\ matching_intents "tell me a joke then exit" = [Exit; Joke]
  /\ select_intent "tell me a joke then exit" = Exit
  /\ (forall env s,
        process_command env "tell me a joke then exit" s
        = (Returned true,
           with_is_active false (with_last_activation_time (now env) s),
           (log_events env "tell me a joke then exit" s
            ++ [Say "Goodbye!"])%list)).
Proof.
  split; [exact process_command_refines|].
  split; [intros q; apply first_match_is_head|].
  repeat split.
  intros env s. now rewrite process_command_run.
Qed.

(** ** Wake-word detection *)

Lemma detection_run (t : string) (clock : Z) (s : VoiceAssistant) :
  outcome_of (listen_for_wake_word (Transcript t) clock s)
  = Returned (contains (wake_word s) (lower t)).
Proof.
  rewrite listen_for_wake_word_run. unfold wake_poll.
  now destruct (contains _ _).
Qed.

Lemma in_all_ascii (a : ascii) : In a all_ascii.
Proof.
  unfold all_ascii. rewrite <- (ascii_nat_embedding a).
  apply in_map, in_seq. pose proof (nat_ascii_bounded a). lia.
Qed.

(** [lower] sends two characters to the same one exactly when they are
    the same letter: checked on the 256 x 256 pairs. *)
Lemma same_letter_lower (a b : ascii) :
  same_letter a b = Ascii.eqb (lower_char a) (lower_char b).
Proof.
  assert (H : forallb
                (fun x =>
                   forallb
                     (fun y =>
                        Bool.eqb (same_letter x y)
                          (Ascii.eqb (lower_char x) (lower_char y)))
                     all_ascii)
                all_ascii = true)
    by (vm_compute; reflexivity).
  rewrite forallb_forall in H. specialize (H a (in_all_ascii a)).
  rewrite forallb_forall in H. specialize (H b (in_all_ascii b)).
  now apply Bool.eqb_prop.
Qed.

Lemma equal_up_to_case_lower (a b : string) :
  equal_up_to_case a b = true <-> lower a = lower b.
Proof.
  revert b. induction a as [|x a IH]; intros [|y b]; cbn;
    try (split; [reflexivity | reflexivity]);
    try (split; discriminate).
  rewrite andb_true_iff, same_letter_lower, Ascii.eqb_eq, IH. split.
  - intros [-> ->]. reflexivity.
  - intros [= -> ->]. auto.
Qed.

Lemma occurs_up_to_case_iff (w t : string) :
  occurs_up_to_case w t <-> occurs_ignoring_case w t.
Proof.
  unfold occurs_up_to_case, occurs_ignoring_case.
  split; intros (pre & mid & post & E & H); exists pre, mid, post;
    (split; [exact E|]); now apply equal_up_to_case_lower.
Qed.

(** C3. Given a transcribed utterance, [listen_for_wake_word] answers
    true exactly when the configured wake word (stored in lowercase)
    occurs in the utterance up to letter case, that is when the utterance
    has a slice of the length of the wake word that spells it letter by
    letter, a capital counting as its small letter; it answers false
    otherwise. Nothing looser is accepted: a detected utterance is at
    least as long as the wake word. *)
Theorem wake_word_detection_iff (w t : string) (clock : Z)
    (s : VoiceAssistant) :
  wake_word s = lower w ->
  let answer := outcome_of (listen_for_wake_word (Transcript t) clock s) in
  (answer = Returned true <-> occurs_up_to_case w t)
  /\ (answer = Returned false <-> ~ occurs_up_to_case w t)
  /\ (answer = Returned true -> String.length w <= String.length t).
Proof.
  intros Hw. cbn zeta. rewrite detection_run, Hw.
  rewrite occurs_up_to_case_iff, <- contains_lower_iff.
  split; [|split].
  - destruct (contains (lower w) (lower t)); split; congruence.
  - destruct (contains (lower w) (lower t)); split; congruence.
  - intros [= H]. apply contains_lower_iff in H.
    destruct H as (pre & mid & post & -> & E).
    assert (L : forall x, String.length (lower x) = String.length x)
      by (induction x as [|c x IH]; cbn; [reflexivity | now rewrite IH]).
    assert (A : forall x y, String.length (x ++ y)
                            = String.length x + String.length y)
      by (induction x as [|c x IH]; intros y; cbn;
          [reflexivity | now rewrite IH]).
    rewrite <- (L w), <- E, L, !A. lia.
Qed.

(** The two utterances of the specification, one in capitals, and letters
    that are and are not the same. *)
Lemma wake_word_detection_iff_witness :
  outcome_of (listen_for_wake_word (Transcript "ok hey assistant please help")
                0 (session "hey assistant" 60 false 0)) = Returned true
  /\ outcome_of (listen_for_wake_word (Transcript "hey assist")
                   0 (session "hey assistant" 60 false 0)) = Returned false
  /\ outcome_of (listen_for_wake_word (Transcript "OK, HEY Assistant!")
                   0 (session "Hey Assistant" 60 false 0)) = Returned true
  /\ outcome_of (listen_for_wake_word (Transcript "hex assistant")
                   0 (session "hey assistant" 60 false 0)) = Returned false
  /\ same_letter "H" "h" = true
  /\ same_letter "h" "x" = false.
Proof.
  split; [|split; [|split; [|split]]].
  - apply (wake_word_detection_iff "hey assistant"
             "ok hey assistant please help" 0
             (session "hey assistant" 60 false 0) eq_refl).
    exists "ok ", "hey assistant", " please help". split; reflexivity.
  - destruct (wake_word_detection_iff "hey assistant" "hey assist" 0
                (session "hey assistant" 60 false 0) eq_refl)
      as (Hyes & Hno & Hlen).
    apply Hno. intros H. apply Hyes in H.
    specialize (Hlen H). cbn in Hlen. lia.
  - apply (wake_word_detection_iff "Hey Assistant" "OK, HEY Assistant!" 0
             (session "Hey Assistant" 60 false 0) eq_refl).
    exists "OK, ", "HEY Assistant", "!". split; reflexivity.
  - reflexivity.
  - split; reflexivity.
Defined.

(** ** The timeout test of one poll *)

(** C4, as stated, fails: a poll 61 seconds after activation in which
    nobody speaks, and one in which the wake word is heard, both leave the
    session active and emit no timeout notice. *)
Lemma timeout_poll_counterexample :
  is_active (state_of (listen_for_wake_word NoSpeech (1000 + 61)
                         overdue_session)) = true
  /\ count_events (is_say timeout_notice)
       (trace_of (listen_for_wake_word NoSpeech (1000 + 61)
                    overdue_session)) = 0
  /\ is_active (state_of (listen_for_wake_word (Transcript "hey assistant")
                            (1000 + 61) overdue_session)) = true
  /\ count_events (is_say timeout_notice)
       (trace_of (listen_for_wake_word (Transcript "hey assistant")
                    (1000 + 61) overdue_session)) = 0.
Proof. repeat split. Qed.

(** C4, amended. With a limit of 60 and a session active since [t0]: a
    poll at [t0 + 61] whose capture is not understood, or is transcribed
    to text without the wake word, returns false, makes the session idle
    and speaks the timeout notice exactly once; a poll at [t0 + 61] that
    hears the wake word reports it and leaves the session active, without
    notice; a poll at [t0 + 60] or at [t0 + 59] leaves the session as it
    was and speaks no notice, whatever is heard. *)
Theorem timeout_poll_strict_guard (t0 : Z) (h : Heard) (s : VoiceAssistant) :
  timeout s = 60%Z ->
  is_active s = true ->
  last_activation_time s = t0 ->
  let late := listen_for_wake_word h (t0 + 61) s in
  let edge := listen_for_wake_word h (t0 + 60) s in
  let early := listen_for_wake_word h (t0 + 59) s in
  (reaches_timeout_test (wake_word s) h = true ->
   outcome_of late = Returned false
   /\ state_of late = with_is_active false s
   /\ is_active (state_of late) = false
   /\ count_events (is_say timeout_notice) (trace_of late) = 1)
  /\ (forall text,
        h = Transcript text ->
        contains (wake_word s) (lower text) = true ->
        outcome_of late = Returned true
        /\ state_of late = s
        /\ count_events (is_say timeout_notice) (trace_of late) = 0)
  /\ (state_of edge = s
      /\ count_events (is_say timeout_notice) (trace_of edge) = 0)
  /\ (state_of early = s
      /\ is_active (state_of early) = true
      /\ count_events (is_say timeout_notice) (trace_of early) = 0).
Proof.
  intros Hlimit Hactive Hlast. cbn zeta.
  rewrite !listen_for_wake_word_run.
  assert (Hlate : timed_out (t0 + 61) s = true).
  { unfold timed_out. rewrite Hactive, Hlimit, Hlast. cbn.
    apply Z.ltb_lt. lia. }
  assert (Hedge : timed_out (t0 + 60) s = false).
  { unfold timed_out. rewrite Hactive, Hlimit, Hlast. cbn.
    apply Z.ltb_ge. lia. }
  assert (Hearly : timed_out (t0 + 59) s = false).
  { unfold timed_out. rewrite Hactive, Hlimit, Hlast. cbn.
    apply Z.ltb_ge. lia. }
  unfold wake_poll, after_timeout_test, timeout_events.
  rewrite Hlate, Hedge, Hearly.
  split; [|split; [|split]].
  - destruct h as [| | |text]; cbn [reaches_timeout_test]; try discriminate.
    + intros _. repeat split.
    + intros Hno. apply negb_true_iff in Hno. rewrite Hno. repeat split.
  - intros text -> Hyes. rewrite Hyes. repeat split.
  - destruct h as [| | |text]; try (repeat split; fail).
    destruct (contains _ _); repeat split.
  - destruct h as [| | |text]; try (repeat split; assumption).
    destruct (contains _ _); repeat split; assumption.
Qed.

(** A poll that hears something unintelligible, 61 and 59 seconds after
    activation. *)
Lemma timeout_poll_strict_guard_witness :
  state_of (listen_for_wake_word Unintelligible (1000 + 61) overdue_session)
  = with_is_active false overdue_session
  /\ count_events (is_say timeout_notice)
       (trace_of (listen_for_wake_word Unintelligible (1000 + 61)
                    overdue_session)) = 1
  /\ is_active (state_of (listen_for_wake_word Unintelligible (1000 + 59)
                            overdue_session)) = true.
Proof.
  pose proof (timeout_poll_strict_guard 1000 Unintelligible overdue_session
                eq_refl eq_refl eq_refl) as (Hlate & _ & _ & Hearly).
  destruct (Hlate eq_refl) as (_ & Hs & _ & Hn).
  destruct Hearly as (_ & Ha & _).
  repeat split; assumption.
Defined.

(** ** Configuration loading *)

(** C5, as stated, fails: a configuration file that exists but cannot be
    opened, or whose bytes are not text, makes the loader, and with it the
    construction of the assistant, raise. *)
Lemma unreadable_config_counterexample :
  _load_config Unreadable = Raised PermissionError
  /\ init "hey assistant" 60 Unreadable Missing = Raised PermissionError
  /\ _load_config Undecodable = Raised UnicodeDecodeError.
Proof. repeat split. Qed.

(** C5, amended. A configuration file that is missing, or whose text is
    not JSON, yields exactly the defaults ["en-US"], [true], [2]
    without raising, and the assistant is then constructed with them. *)
Theorem load_config_fallback (src : FileSource Config) :
  src = Missing \/ src = Malformed ->
  _load_config src = Returned default_config
  /\ language default_config = "en-US"
  /\ log_commands default_config = true
  /\ max_wikipedia_sentences default_config = 2%Z
  /\ (forall w limit,
        exists s, init w limit src Missing = Returned s
                  /\ config s = default_config).
Proof.
  intros [-> | ->]; repeat split; intros w limit; eexists; split; reflexivity.
Qed.

(** A configuration file holding text that is not JSON. *)
Lemma load_config_fallback_witness :
  _load_config Malformed = Returned default_config.
Proof.
  apply (load_config_fallback Malformed). right. reflexivity.
Defined.

(** ** The opening of [process_command] *)

Lemma handler_ignores_log_sink (k : LogSink) (env : CommandEnv) (i : Intent)
    (s : VoiceAssistant) :
  handler (with_log_sink k env) i s = handler env i s.
Proof. destruct i; reflexivity. Qed.

Lemma filter_not_log_log_events (env : CommandEnv) (q : string)
    (s : VoiceAssistant) :
  filter not_log (log_events env q s) = [].
Proof.
  unfold log_events. destruct (log_commands _); [destruct (log_sink env)|];
    reflexivity.
Qed.

(** C6. Whatever the utterance and the intent it selects,
    [process_command] stores the clock reading in [last_activation_time],
    then writes one log line exactly when [log_commands] is on and the
    write succeeds, then runs the handler, which never logs. The line is
    the timestamp, a colon and a space, the utterance exactly as given,
    and a line feed. A failed write is swallowed: outcome, final state
    and every other event are those of the run with a successful write.
    With [log_commands] off no log line is written, by one command or by
    any number of turns of the loop. *)
Theorem process_command_resets_and_logs (env : CommandEnv) (q : string)
    (s : VoiceAssistant) :
  let r := process_command env q s in
  let h := handler env (select_intent q)
             (with_last_activation_time (now env) s) in
  let ok := process_command (with_log_sink Writable env) q s in
  let ko := process_command (with_log_sink WriteFails env) q s in
  let line := log_stamp env ++ ": " ++ q ++ String "010" "" in
  let written :=
    if log_commands (config s)
    then match log_sink env with
         | Writable => [LogAppend line]
         | WriteFails => []
         end
    else [] in
  last_activation_time (state_of r) = now env
  /\ r = (outcome_of h, state_of h, (written ++ trace_of h)%list)
  /\ filter is_log (trace_of h) = []
  /\ filter is_log (trace_of r) = written
  /\ (log_commands (config s) = true ->
      filter is_log (trace_of ok) = [LogAppend line]
      /\ hd_error (trace_of ok) = Some (LogAppend line)
      /\ String.length line
         = String.length (log_stamp env) + 2 + String.length q + 1
      /\ substring 0 (String.length (log_stamp env)) line = log_stamp env
      /\ substring (String.length (log_stamp env) + 2) (String.length q)
           line = q)
  /\ (outcome_of ko = outcome_of ok
      /\ state_of ko = state_of ok
      /\ filter not_log (trace_of ko) = filter not_log (trace_of ok)
      /\ filter is_log (trace_of ko) = [])
  /\ (log_commands (config s) = false ->
      filter is_log (trace_of r) = []
      /\ forall turns, filter is_log (trace_of (loop turns s)) = []).
Proof.
  cbn zeta.
  destruct (process_command_frame env q s) as (_ & Hl & Hlog & _).
  destruct (handler_frame env (select_intent q)
              (with_last_activation_time (now env) s))
    as (_ & _ & _ & _ & Hh & _).
  assert (A : forall x y, String.length (x ++ y)
                          = String.length x + String.length y)
    by (induction x as [|c x IH]; intros y; cbn;
        [reflexivity | now rewrite IH]).
  assert (P : forall x y, substring 0 (String.length x) (x ++ y) = x).
  { induction x as [|c x IH]; intros y; cbn.
    - now destruct y.
    - now rewrite IH. }
  assert (S : forall x y n m,
             substring (String.length x + n) m (x ++ y) = substring n m y).
  { induction x as [|c x IH]; intros y n m; cbn; [reflexivity | apply IH]. }
  split; [exact Hl|].
  split; [apply process_command_run|].
  split; [exact Hh|].
  split; [rewrite Hlog; reflexivity|].
  split.
  - intros Hon.
    destruct (process_command_frame (with_log_sink Writable env) q s)
      as (_ & _ & Hok & _).
    split; [rewrite Hok; unfold log_events; rewrite Hon; reflexivity|].
    split.
    { rewrite process_command_run. unfold trace_of at 1. cbn [snd].
      unfold log_events. rewrite Hon. reflexivity. }
    split; [rewrite !A; cbn; lia|].
    split; [apply P|].
    rewrite S.
    change (": " ++ q ++ String "010" "")
      with (String ":" (String " " (q ++ String "010" ""))).
    cbn [substring]. apply P.
  - split.
    + rewrite !process_command_run, !handler_ignores_log_sink.
      unfold outcome_of, state_of, trace_of. cbn [fst snd].
      rewrite !filter_app, !filter_not_log_log_events.
      repeat split.
      unfold trace_of in Hh.
      change (now (with_log_sink WriteFails env)) with (now env).
      rewrite Hh, app_nil_r.
      unfold log_events. cbn. now destruct (log_commands _).
    + intros Hoff. split.
      * rewrite Hlog. unfold log_events. now rewrite Hoff.
      * intros turns. now apply loop_frame.
Qed.

(** One command to a session that logs: the line written. Three commands
    to a session that does not: nothing written. *)
Lemma process_command_resets_and_logs_witness :
  filter is_log
    (trace_of (process_command (quiet_world 10) "tell me a joke"
                 (session "hey assistant" 60 true 0)))
  = [LogAppend ("2024-01-01 00:00:00: tell me a joke" ++ String "010" "")]
  /\ filter is_log
       (trace_of (loop [joke_turn 10; joke_turn 20; joke_turn 30]
                    muted_session))
     = [].
Proof.
  split.
  - destruct (process_command_resets_and_logs (quiet_world 10)
                "tell me a joke" (session "hey assistant" 60 true 0))
      as (_ & _ & _ & _ & H & _).
    exact (proj1 (H eq_refl)).
  - apply (process_command_resets_and_logs (quiet_world 10) "tell me a joke"
             muted_session).
    reflexivity.
Defined.

(** ** Changing the wake word *)

(** C7. A change-wake-word command replaces the stored wake word by the
    (lowercased) reply of the sub-listen when that reply is not empty,
    and leaves it alone when it is; detection afterwards tests the stored
    word. After the reply "computer", "ok computer do this" is detected
    and "hey assistant" no longer is. *)
Theorem change_wake_word_roundtrip (env : CommandEnv) (q : string)
    (s : VoiceAssistant) :
  select_intent q = ChangeWakeWord ->
  let reply := command_reply (sub_heard env) in
  let s' := state_of (process_command env q s) in
  wake_word s' = (if truthy reply then lower reply else wake_word s)
  /\ (reply = "" -> wake_word s' = wake_word s)
  /\ (forall t clock,
        outcome_of (listen_for_wake_word (Transcript t) clock s')
        = Returned (contains (wake_word s') (lower t)))
  /\ (sub_heard env = Transcript "computer" ->
      wake_word s' = "computer"
      /\ (forall clock,
            outcome_of (listen_for_wake_word
                          (Transcript "ok computer do this") clock s')
            = Returned true)
      /\ (forall clock,
            outcome_of (listen_for_wake_word
                          (Transcript "hey assistant") clock s')
            = Returned false)).
Proof.
  intros Hq. cbn zeta.
  destruct (process_command_frame env q s) as (_ & _ & _ & Hw & _).
  rewrite Hq in Hw. unfold wake_word_after_change in Hw.
  split; [exact Hw|].
  split; [intros E; now rewrite Hw, E|].
  split; [intros t clock; apply detection_run|].
  intros Hheard.
  assert (Hc : wake_word (state_of (process_command env q s)) = "computer")
    by (rewrite Hw, Hheard; reflexivity).
  split; [exact Hc|].
  split; intros clock; rewrite detection_run, Hc; reflexivity.
Qed.

(** The reply "computer", and no reply at all. *)
Lemma change_wake_word_roundtrip_witness :
  wake_word (state_of (process_command (world_replying "computer")
                         "change wake word"
                         (session "hey assistant" 60 true 0)))
  = "computer"
  /\ wake_word (state_of (process_command (quiet_world 5)
                            "change wake word"
                            (session "hey assistant" 60 true 0)))
     = "hey assistant".
Proof.
  split.
  - pose proof (change_wake_word_roundtrip (world_replying "computer")
                  "change wake word" (session "hey assistant" 60 true 0)
                  eq_refl) as (_ & _ & _ & H).
    exact (proj1 (H eq_refl)).
  - pose proof (change_wake_word_roundtrip (quiet_world 5)
                  "change wake word" (session "hey assistant" 60 true 0)
                  eq_refl) as (_ & H & _).
    exact (H eq_refl).
Defined.

(** ** Leaving the session *)

Lemma exit_selected (q : string) :
  contains "exit" q || contains "goodbye" q || contains "bye" q = true ->
  select_intent q = Exit /\ truthy q = true.
Proof.
  intros H. split.
  - unfold select_intent. cbn [intent_table first_match row_matches existsb].
    now rewrite orb_false_r, orb_assoc, H.
  - destruct q; [discriminate H | reflexivity].
Qed.

(** C8. An utterance containing "exit", "goodbye" or "bye" makes
    [process_command] speak the farewell, leave the session idle and
    return [True]; the turn of the loop in which it is heard ends
    normally, and the loop goes on with the following turns from the idle
    session. *)
Theorem exit_returns_to_idle (env : CommandEnv) (q : string)
    (s : VoiceAssistant) :
  contains "exit" q || contains "goodbye" q || contains "bye" q = true ->
  process_command env q s
  = (Returned true,
     with_is_active false (with_last_activation_time (now env) s),
     (log_events env q s ++ [Say "Goodbye!"])%list)
  /\ is_active (state_of (process_command env q s)) = false
  /\ (forall turn rest,
        is_active s = true ->
        command_reply (command_heard turn) = q ->
        command_env turn = env ->
        let after := tick turn s in
        outcome_of after = Returned tt
        /\ state_of after
           = with_is_active false (with_last_activation_time (now env) s)
        /\ loop (turn :: rest) s
           = (outcome_of (loop rest (state_of after)),
              state_of (loop rest (state_of after)),
              (trace_of after ++ trace_of (loop rest (state_of after)))%list)).
Proof.
  intros H. destruct (exit_selected q H) as [Hi Hq].
  assert (E : process_command env q s
              = (Returned true,
                 with_is_active false (with_last_activation_time (now env) s),
                 (log_events env q s ++ [Say "Goodbye!"])%list)).
  { rewrite process_command_run, Hi. reflexivity. }
  split; [exact E|]. split; [now rewrite E|].
  intros turn rest Ha Hreply Henv. cbn zeta.
  assert (T : tick turn s
              = (Returned tt,
                 with_is_active false (with_last_activation_time (now env) s),
                 (command_events (command_heard turn)
                  ++ log_events env q s ++ [Say "Goodbye!"])%list)).
  { rewrite tick_run.
    assert (Es : after_wake_half turn s = s)
      by (unfold after_wake_half; now rewrite Ha).
    rewrite Es. unfold wake_half_events. rewrite Ha, command_half_run.
    rewrite Hreply, Hq, Henv, E. reflexivity. }
  rewrite loop_cons, T. repeat split.
Qed.

(** The command "exit please" heard by an active session. *)
Lemma exit_returns_to_idle_witness :
  is_active (state_of (tick (exit_turn 7)
                         (session "hey assistant" 60 true 0))) = false
  /\ outcome_of (process_command (quiet_world 7) "exit please"
                   (session "hey assistant" 60 true 0)) = Returned true.
Proof.
  pose proof (exit_returns_to_idle (quiet_world 7) "exit please"
                (session "hey assistant" 60 true 0) eq_refl)
    as (Hrun & _ & Hturn).
  destruct (Hturn (exit_turn 7) [] eq_refl eq_refl eq_refl) as (_ & Hs & _).
  split.
  - rewrite Hs. reflexivity.
  - rewrite Hrun. reflexivity.
Defined.

(** ** Encyclopedia lookup *)

Lemma search_wikipedia_run (env : CommandEnv) (topic : string)
    (s : VoiceAssistant) :
  _search_wikipedia env topic s
  = (Returned tt, s,
     [Say (lookup_speech
             (wikipedia env topic (max_wikipedia_sentences (config s))))]).
Proof. unfold_methods. cbn. now destruct (wikipedia env topic _). Qed.

(** C9. [_search_wikipedia] asks the service for the topic with
    [sentences = max_wikipedia_sentences], always returns normally, and
    says exactly one thing: the summary on success, and on an ambiguous
    topic, a missing page, or any other failure one of three notices that
    differ from one another. Whatever measure the service bounds by the
    positive number of sentences it is asked for bounds the spoken summary
    by a positive [max_wikipedia_sentences]. The wikipedia command as a
    whole returns [True] as well. *)
Theorem search_wikipedia_outcomes (env : CommandEnv) (topic : string)
    (s : VoiceAssistant) :
  let n := max_wikipedia_sentences (config s) in
  _search_wikipedia env topic s
  = (Returned tt, s, [Say (lookup_speech (wikipedia env topic n))])
  /\ (ambiguous_notice <> no_page_notice
      /\ ambiguous_notice <> lookup_failed_notice
      /\ no_page_notice <> lookup_failed_notice)
  /\ (forall size : string -> Z,
        (forall t k text, (0 < k)%Z -> wikipedia env t k = Summary text ->
                          (size text <= k)%Z) ->
        (0 < n)%Z ->
        forall text,
          wikipedia env topic n = Summary text ->
          trace_of (_search_wikipedia env topic s) = [Say text]
          /\ (size text <= n)%Z)
  /\ (forall q, select_intent q = Wikipedia ->
                outcome_of (process_command env q s) = Returned true).
Proof.
  cbn zeta.
  pose proof (search_wikipedia_run env topic s) as E.
  split; [exact E|].
  split; [repeat split; discriminate|].
  split.
  - intros size Hbound Hpos text Htext. rewrite E, Htext.
    split; [reflexivity|]. now apply (Hbound topic).
  - intros q Hq. rewrite process_command_run, Hq.
    cbn [handler]. unfold bind, speak, emit, ret.
    rewrite listen_for_command_run.
    destruct (truthy _); [|reflexivity].
    now rewrite search_wikipedia_run.
Qed.

(** A service that answers one sentence, asked for two. *)
Lemma search_wikipedia_outcomes_witness :
  trace_of (_search_wikipedia one_sentence_world "rocq"
              (session "hey assistant" 60 true 0))
  = [Say "Rocq is a proof assistant."]
  /\ (full_stops "Rocq is a proof assistant." <= 2)%Z
  /\ outcome_of (process_command one_sentence_world "search wikipedia"
                   (session "hey assistant" 60 true 0)) = Returned true.
Proof.
  pose proof (search_wikipedia_outcomes one_sentence_world "rocq"
                (session "hey assistant" 60 true 0)) as (_ & _ & Hsize & Hcmd).
  split; [|split].
  - apply (Hsize full_stops); [|reflexivity|reflexivity].
    intros t k text Hk. cbn.
    destruct (Z.leb_spec 1 k); [|discriminate].
    intros Ht. injection Ht as <-. cbn. lia.
  - apply (Hsize full_stops); [|reflexivity|reflexivity].
    intros t k text Hk. cbn.
    destruct (Z.leb_spec 1 k); [|discriminate].
    intros Ht. injection Ht as <-. cbn. lia.
  - apply Hcmd. reflexivity.
Defined.

(** ** The wake word is kept in lowercase *)

Lemma init_wake_word (w : string) (limit : Z) (cfg : FileSource Config)
    (rsp : FileSource Responses) (s : VoiceAssistant) :
  init w limit cfg rsp = Returned s -> wake_word s = lower w.
Proof.
  unfold init. destruct (_load_config cfg); [|discriminate].
  destruct (_load_responses rsp); [|discriminate].
  intros H. injection H as <-. reflexivity.
Qed.




(** * Further properties of the methods *)

(** ** Listening for a command *)


(** ** What a command returns *)

Lemma handler_outcome (env : CommandEnv) (i : Intent) (s : VoiceAssistant) :
  outcome_of (handler env i s)
  = match pool_of i with
    | Some category =>
        match category (responses s) with
        | [] => Raised IndexError
        | _ => Returned true
        end
    | None => Returned true
    end.
Proof.
  destruct s as [w l a t c [g j q p u]].
  destruct i; cbn [pool_of]; unfold_methods;
    rewrite ?listen_for_command_run; handler_cases env; reflexivity.
Qed.

Lemma process_command_outcome (env : CommandEnv) (q : string)
    (s : VoiceAssistant) :
  outcome_of (process_command env q s)
  = match pool_of (select_intent q) with
    | Some category =>
        match category (responses s) with
        | [] => Raised IndexError
        | _ => Returned true
        end
    | None => Returned true
    end.
Proof.
  rewrite process_command_run. unfold outcome_of at 1. cbn [fst].
  now rewrite handler_outcome.
Qed.

(** X2. [process_command] never returns [False]: on every utterance it
    returns [True], or raises [IndexError] when the selected intent draws
    from a response category that is empty. When the five categories are
    all non-empty it returns [True] on every utterance. *)
Theorem process_command_returns_true (env : CommandEnv) (q : string)
    (s : VoiceAssistant) :
  (outcome_of (process_command env q s) = Returned true
   \/ outcome_of (process_command env q s) = Raised IndexError)
  /\ (outcome_of (process_command env q s) = Raised IndexError <->
      exists category, pool_of (select_intent q) = Some category
                       /\ category (responses s) = [])
  /\ (categories_nonempty (responses s) ->
      outcome_of (process_command env q s) = Returned true).
Proof.
  rewrite process_command_outcome.
  split; [|split].
  - destruct (pool_of _) as [cat|]; [destruct (cat _)|]; auto.
  - destruct (pool_of _) as [cat|].
    + destruct (cat (responses s)) eqn:E; split.
      * intros _. now exists cat.
      * reflexivity.
      * discriminate.
      * intros (cat' & [= <-] & H). congruence.
    + split; [discriminate | intros (cat' & H & _); discriminate H].
  - intros (Hg & Hj & Hq & Hp & Hu).
    destruct (select_intent q); cbn [pool_of]; try reflexivity.
    + now destruct (greetings _).
    + now destruct (jokes _).
    + now destruct (quotes _).
    + now destruct (preferences _).
    + now destruct (unknown_command _).
Qed.

(** The defaults answer a joke request; a session without jokes raises. *)
Lemma process_command_returns_true_witness :
  outcome_of (process_command (quiet_world 5) "tell me a joke"
                (session "hey assistant" 60 true 0)) = Returned true
  /\ outcome_of (process_command (quiet_world 5) "tell me a joke"
                   jokeless_session) = Raised IndexError.
Proof.
  split.
  - apply (process_command_returns_true (quiet_world 5) "tell me a joke"
             (session "hey assistant" 60 true 0)).
    repeat split; discriminate.
  - apply (process_command_returns_true (quiet_world 5) "tell me a joke"
             jokeless_session).
    exists jokes. split; reflexivity.
Defined.

(** ** Drawing an answer *)

Lemma random_choice_run (r : nat) (pool : list string) (s : VoiceAssistant) :
  pool <> [] ->
  random_choice r pool s
  = (Returned (nth (r mod List.length pool) pool ""), s, [])
  /\ In (nth (r mod List.length pool) pool "") pool.
Proof.
  intros Hne. destruct pool as [|x pool]; [contradiction|].
  split; [reflexivity|].
  apply nth_In. apply Nat.mod_upper_bound. discriminate.
Qed.

Lemma pool_handler (env : CommandEnv) (i : Intent)
    (category : Responses -> list string) :
  pool_of i = Some category -> handler env i = speak_random env category.
Proof. destruct i; cbn; intros [= <-]; reflexivity. Qed.

(** X3. [random.choice] on a non-empty category returns one of its
    members whatever the generator draws, every member is returned for
    some draw, and an empty category raises [IndexError]. A command whose
    intent draws from a non-empty category speaks one member of that
    category, after the log line if any, and says nothing else. *)
Theorem random_answers_come_from_their_category :
  (forall r pool s,
     pool <> [] ->
     exists line, random_choice r pool s = (Returned line, s, [])
                  /\ In line pool)
  /\ (forall pool line,
        In line pool ->
        exists r, forall s, random_choice r pool s = (Returned line, s, []))
  /\ (forall r s, random_choice r [] s = (Raised IndexError, s, []))
  /\ (forall env q s category,
        pool_of (select_intent q) = Some category ->
        category (responses s) <> [] ->
        exists line,
          In line (category (responses s))
          /\ process_command env q s
             = (Returned true, with_last_activation_time (now env) s,
                (log_events env q s ++ [Say line])%list)).
Proof.
  split; [|split; [|split]].
  - intros r pool s Hne. destruct (random_choice_run r pool s Hne) as [E Hin].
    eauto.
  - intros pool line Hin.
    destruct (In_nth pool line "" Hin) as (n & Hn & Hline).
    exists n. intros s.
    assert (Hne : pool <> []) by (intros ->; inversion Hin).
    destruct (random_choice_run n pool s Hne) as [E _].
    now rewrite E, Nat.mod_small, Hline.
  - reflexivity.
  - intros env q s category Hpool Hne.
    set (s1 := with_last_activation_time (now env) s).
    destruct (random_choice_run (rand env) (category (responses s1)) s1 Hne)
      as [E Hin].
    eexists. split; [exact Hin|].
    rewrite process_command_run, (pool_handler env _ _ Hpool).
    fold s1. unfold speak_random, bind, gets, speak, emit, ret.
    rewrite E. reflexivity.
Qed.

(** With the built-in jokes, the draw 7 tells the third one. *)
Lemma random_answers_come_from_their_category_witness :
  exists line,
    In line (jokes default_responses)
    /\ process_command (world_drawing 7) "tell me a joke"
         (session "hey assistant" 60 true 0)
       = (Returned true,
          with_last_activation_time 5 (session "hey assistant" 60 true 0),
          [LogAppend (log_line "2024-01-01 00:00:05" "tell me a joke");
           Say line]).
Proof.
  destruct random_answers_come_from_their_category as (_ & _ & _ & H).
  destruct (H (world_drawing 7) "tell me a joke"
              (session "hey assistant" 60 true 0) jokes eq_refl)
    as (line & Hin & E).
  - discriminate.
  - exists line. split; [exact Hin | exact E].
Defined.

(** ** Which commands end the session, which open the browser *)

Lemma handler_is_active (env : CommandEnv) (i : Intent) (s : VoiceAssistant) :
  is_active (state_of (handler env i s))
  = if deactivates i then false else is_active s.
Proof.
  destruct s as [w l a t c [g j q p u]].
  destruct i; cbn [deactivates]; unfold_methods;
    rewrite ?listen_for_command_run; handler_cases env; reflexivity.
Qed.

(** X4. [process_command] never activates a session, and deactivates it
    exactly when the selected intent is exit or sleep: after any other
    command, whatever its sub-listen hears and even when it raises, the
    session is active if and only if it was. *)
Theorem only_exit_and_sleep_deactivate (env : CommandEnv) (q : string)
    (s : VoiceAssistant) :
  is_active (state_of (process_command env q s))
  = (if deactivates (select_intent q) then false else is_active s)
  /\ (is_active s = false ->
      is_active (state_of (process_command env q s)) = false)
  /\ (is_active s = true ->
      (is_active (state_of (process_command env q s)) = false
       <-> select_intent q = Exit \/ select_intent q = Sleep)).
Proof.
  assert (E : is_active (state_of (process_command env q s))
              = if deactivates (select_intent q) then false else is_active s).
  { rewrite process_command_run. unfold state_of at 1. cbn [fst snd].
    now rewrite handler_is_active. }
  split; [exact E|]. rewrite E. split.
  - intros ->. now destruct (deactivates _).
  - intros ->. destruct (select_intent q); cbn; split; auto;
      try discriminate; intros [H|H]; discriminate H.
Qed.

(** An active session told the time stays active; told to sleep, it does
    not. *)
Lemma only_exit_and_sleep_deactivate_witness :
  is_active (state_of (process_command (quiet_world 5) "what time is it"
                         (session "hey assistant" 60 true 0))) = true
  /\ is_active (state_of (process_command (quiet_world 5) "go to sleep"
                            (session "hey assistant" 60 true 0))) = false.
Proof.
  split.
  - destruct (only_exit_and_sleep_deactivate (quiet_world 5)
                "what time is it" (session "hey assistant" 60 true 0))
      as (E & _). rewrite E. reflexivity.
  - apply (only_exit_and_sleep_deactivate (quiet_world 5) "go to sleep"
             (session "hey assistant" 60 true 0)).
    + reflexivity.
    + right. reflexivity.
Defined.

Lemma log_events_no_browser (env : CommandEnv) (q : string)
    (s : VoiceAssistant) :
  filter is_browser (log_events env q s) = [].
Proof.
  unfold log_events. destruct (log_commands _); [destruct (log_sink env)|];
    reflexivity.
Qed.

Lemma handler_browser (env : CommandEnv) (i : Intent) (s : VoiceAssistant) :
  filter is_browser (trace_of (handler env i s))
  = match i with
    | Search =>
        if truthy (command_reply (sub_heard env))
        then [OpenBrowser ("https://www.google.com/search?q="
                           ++ command_reply (sub_heard env))]
        else []
    | _ => []
    end.
Proof.
  destruct s as [w l a t c [g j q p u]].
  destruct i; unfold_methods; rewrite ?listen_for_command_run;
    handler_cases env; reflexivity.
Qed.

(** X5. The browser is opened only by a search command whose sub-listen
    returns a non-empty query, and then exactly once, on the address
    [https://www.google.com/search?q=] followed by the query as heard
    (lowercased, not escaped); a search command whose sub-listen hears
    nothing opens nothing, and no other command opens anything. *)
Theorem browser_opened_only_by_search (env : CommandEnv) (q : string)
    (s : VoiceAssistant) :
  filter is_browser (trace_of (process_command env q s))
  = match select_intent q with
    | Search =>
        if truthy (command_reply (sub_heard env))
        then [OpenBrowser ("https://www.google.com/search?q="
                           ++ command_reply (sub_heard env))]
        else []
    | _ => []
    end.
Proof.
  rewrite process_command_run. unfold trace_of at 1. cbn [snd].
  now rewrite filter_app, log_events_no_browser, handler_browser.
Qed.

(** ** Turns of an idle session *)

Lemma after_wake_half_idle (env : TickEnv) (s : VoiceAssistant) :
  is_active s = false ->
  after_wake_half env s
  = if wake_word_heard (wake_word s) (wake_heard env)
    then with_last_activation_time (activation_now env)
           (with_is_active true s)
    else s.
Proof.
  intros Ha. unfold after_wake_half, wake_word_heard. rewrite Ha.
  now destruct (wake_heard env).
Qed.

Lemma wake_half_events_silent (env : TickEnv) (s : VoiceAssistant) :
  filter is_speech (wake_half_events env s) = [].
Proof.
  unfold wake_half_events. destruct (is_active s) eqn:Ha; [reflexivity|].
  destruct (after_timeout_test_idle (wake_now env) s Ha) as [_ Ee].
  unfold wake_poll. rewrite Ee.
  destruct (wake_heard env) as [| | |text]; try reflexivity.
  now destruct (contains _ _).
Qed.

(** X6. A turn of an idle session that does not hear the wake word
    (silence, noise, no service, or other words) ends normally, leaves
    the session exactly as it was and speaks nothing. A turn that hears
    the wake word activates the session with the clock reading taken at
    that moment and listens for a command in the same turn: without a
    command the session is left active, with a command the turn ends in
    the state in which [process_command] leaves the activated session. *)
Theorem idle_turn (env : TickEnv) (s : VoiceAssistant) :
  is_active s = false ->
  let woken := with_last_activation_time (activation_now env)
                 (with_is_active true s) in
  let command := command_reply (command_heard env) in
  (wake_word_heard (wake_word s) (wake_heard env) = false ->
   outcome_of (tick env s) = Returned tt
   /\ state_of (tick env s) = s
   /\ filter is_speech (trace_of (tick env s)) = [])
  /\ (wake_word_heard (wake_word s) (wake_heard env) = true ->
      hd_error (filter is_speech (trace_of (tick env s)))
      = Some (Say "How can I help you?")
      /\ (command = "" ->
          outcome_of (tick env s) = Returned tt
          /\ state_of (tick env s) = woken)
      /\ (command <> "" ->
          state_of (tick env s)
          = state_of (process_command (command_env env) command woken))).
Proof.
  intros Ha. cbn zeta. rewrite tick_run, (after_wake_half_idle env s Ha).
  split; intros Hh; rewrite Hh.
  - rewrite Ha. repeat split. apply wake_half_events_silent.
  - cbn [is_active with_last_activation_time with_is_active].
    rewrite command_half_run.
    split; [|split].
    + unfold trace_of at 1. cbn [snd].
      rewrite filter_app, wake_half_events_silent. cbn [app].
      destruct (truthy _); unfold trace_of at 1; cbn [snd];
        now destruct (command_heard env).
    + intros ->. now cbn.
    + intros Hne.
      assert (Ht : truthy (command_reply (command_heard env)) = true).
      { unfold truthy. apply negb_true_iff. now apply String.eqb_neq. }
      now rewrite Ht.
Qed.

(** An idle session hears other words, then its wake word. *)
Lemma idle_turn_witness :
  state_of (tick (silent_turn 9) (session "hey assistant" 60 false 0))
  = session "hey assistant" 60 false 0
  /\ state_of (tick (waking_turn 9 NoSpeech)
                 (session "hey assistant" 60 false 0))
     = session "hey assistant" 60 true 9.
Proof.
  split.
  - pose proof (idle_turn (silent_turn 9)
                  (session "hey assistant" 60 false 0) eq_refl) as [H _].
    exact (proj1 (proj2 (H eq_refl))).
  - pose proof (idle_turn (waking_turn 9 NoSpeech)
                  (session "hey assistant" 60 false 0) eq_refl) as [_ H].
    destruct (H eq_refl) as (_ & Hquiet & _).
    exact (proj2 (Hquiet eq_refl)).
Defined.

(** ** How the program ends *)

Lemma tick_outcome (env : TickEnv) (s : VoiceAssistant) :
  (outcome_of (tick env s) = Returned tt
   \/ outcome_of (tick env s) = Raised IndexError)
  /\ (categories_nonempty (responses s) ->
      outcome_of (tick env s) = Returned tt).
Proof.
  destruct (after_wake_half_frame env s) as ((_ & _ & Hr) & _).
  assert (E : outcome_of (tick env s)
              = if is_active (after_wake_half env s)
                then if truthy (command_reply (command_heard env))
                     then forget (outcome_of
                                    (process_command (command_env env)
                                       (command_reply (command_heard env))
                                       (after_wake_half env s)))
                     else Returned tt
                else Returned tt).
  { rewrite tick_run. destruct (is_active _); [|reflexivity].
    rewrite command_half_run. now destruct (truthy _). }
  rewrite E, process_command_outcome, Hr.
  destruct (is_active _); [|split; auto].
  destruct (truthy _); [|split; auto].
  split.
  - destruct (pool_of _) as [cat|]; [destruct (cat _)|]; cbn; auto.
  - intros (Hg & Hj & Hq & Hp & Hu).
    destruct (select_intent _); cbn [pool_of]; try reflexivity.
    + now destruct (greetings _).
    + now destruct (jokes _).
    + now destruct (quotes _).
    + now destruct (preferences _).
    + now destruct (unknown_command _).
Qed.

Lemma loop_outcome (turns : list TickEnv) (s : VoiceAssistant) :
  (outcome_of (loop turns s) = Raised KeyboardInterrupt
   \/ outcome_of (loop turns s) = Raised IndexError)
  /\ (categories_nonempty (responses s) ->
      outcome_of (loop turns s) = Raised KeyboardInterrupt).
Proof.
  revert s. induction turns as [|env rest IH]; intros s.
  - split; auto.
  - rewrite loop_cons.
    destruct (tick_outcome env s) as [Ho Hne].
    destruct (tick_frame env s) as ((_ & _ & Hr) & _).
    destruct (tick env s) as [[[u|e] s1] tr1];
      unfold outcome_of, state_of in *; cbn [fst snd] in *.
    + destruct (IH s1) as [Ho1 Hne1]. split; [exact Ho1|].
      intros H. apply Hne1. now rewrite Hr.
    + split.
      * destruct Ho as [Ho|Ho]; [discriminate Ho | now right].
      * intros H. specialize (Hne H). discriminate Hne.
Qed.

Lemma run_run (turns : list TickEnv) (s : VoiceAssistant) (e : Exn) :
  outcome_of (loop turns s) = Raised e ->
  run turns s
  = (Returned tt, state_of (loop turns s),
     Say (announcement (wake_word s))
     :: (trace_of (loop turns s) ++ closing_events e)%list).
Proof.
  unfold run, announcement, bind, gets, speak, print, emit, try_except.
  destruct (loop turns s) as [[[u|e'] s'] tr]; cbn; [discriminate|].
  intros [= ->]. now destruct e.
Qed.

(** X7. [run] itself never raises. It first announces the wake word, then
    emits what the turns of its loop emit, and the loop is left either by
    the operator's interrupt, after which it prints a line and says
    "Goodbye!", or by the [IndexError] of an empty response category,
    after which it prints the error and announces the shutdown. With the
    five categories non-empty only the interrupt ends it. *)
Theorem run_ends_with_a_farewell (turns : list TickEnv) (s : VoiceAssistant) :
  outcome_of (run turns s) = Returned tt
  /\ (exists e,
        (e = KeyboardInterrupt \/ e = IndexError)
        /\ outcome_of (loop turns s) = Raised e
        /\ trace_of (run turns s)
           = Say (announcement (wake_word s))
             :: (trace_of (loop turns s) ++ closing_events e)%list
        /\ last (trace_of (run turns s)) (Say "")
           = match e with
             | KeyboardInterrupt => Say "Goodbye!"
             | _ => Say shutdown_notice
             end)
  /\ (categories_nonempty (responses s) ->
      last (trace_of (run turns s)) (Say "") = Say "Goodbye!").
Proof.
  destruct (loop_outcome turns s) as [Ho Hne].
  assert (L : forall e, e = KeyboardInterrupt \/ e = IndexError ->
                outcome_of (loop turns s) = Raised e ->
                last (trace_of (run turns s)) (Say "")
                = match e with
                  | KeyboardInterrupt => Say "Goodbye!"
                  | _ => Say shutdown_notice
                  end).
  { intros e He H. rewrite (run_run turns s e H).
    unfold trace_of at 1. cbn [snd].
    change (Say (announcement (wake_word s))
            :: (trace_of (loop turns s) ++ closing_events e)%list)
      with (((Say (announcement (wake_word s)) :: trace_of (loop turns s))
             ++ closing_events e)%list).
    destruct He as [-> | ->]; cbn [closing_events].
    - change [Print "Program terminated by user"; Say "Goodbye!"]
        with ([Print "Program terminated by user"] ++ [Say "Goodbye!"])%list.
      now rewrite app_assoc, last_last.
    - change [PrintError IndexError; Say shutdown_notice]
        with ([PrintError IndexError] ++ [Say shutdown_notice])%list.
      now rewrite app_assoc, last_last. }
  split; [|split].
  - destruct Ho as [H|H]; now rewrite (run_run turns s _ H).
  - destruct Ho as [H|H].
    + exists KeyboardInterrupt. split; [now left|]. split; [exact H|].
      split; [now rewrite (run_run turns s _ H)|].
      apply (L KeyboardInterrupt); auto.
    + exists IndexError. split; [now right|]. split; [exact H|].
      split; [now rewrite (run_run turns s _ H)|].
      apply (L IndexError); auto.
  - intros H. apply (L KeyboardInterrupt); auto.
Qed.

(** The built-in responses: three joke requests, then the interrupt. *)
Lemma run_ends_with_a_farewell_witness :
  last (trace_of (run [joke_turn 1; joke_turn 2; joke_turn 3]
                    (session "hey assistant" 60 true 0))) (Say "")
  = Say "Goodbye!".
Proof.
  apply (run_ends_with_a_farewell [joke_turn 1; joke_turn 2; joke_turn 3]
           (session "hey assistant" 60 true 0)).
  repeat split; discriminate.
Defined.

Lemma loop_stops (turns rest : list TickEnv) (s : VoiceAssistant) :
  outcome_of (loop turns s) = Raised IndexError ->
  loop (turns ++ rest) s = loop turns s.
Proof.
  revert s. induction turns as [|env turns IH]; intros s H.
  - discriminate H.
  - cbn [app]. rewrite !loop_cons in *.
    destruct (tick env s) as [[[u|e] s1] tr1]; [|reflexivity].
    unfold outcome_of in H. cbn [fst] in H. now rewrite (IH s1 H).
Qed.

(** X8. The loop stops at the first turn that raises: once some turn has
    raised [IndexError], the turns that would follow are not run, [run]
    prints the error, announces the shutdown and returns, with the session
    as the failing command left it. *)
Theorem run_stops_at_first_error (turns rest : list TickEnv)
    (s : VoiceAssistant) :
  outcome_of (loop turns s) = Raised IndexError ->
  loop (turns ++ rest) s = loop turns s
  /\ run (turns ++ rest) s = run turns s
  /\ run turns s
     = (Returned tt, state_of (loop turns s),
        Say (announcement (wake_word s))
        :: (trace_of (loop turns s)
            ++ [PrintError IndexError; Say shutdown_notice])%list).
Proof.
  intros H. pose proof (loop_stops turns rest s H) as E.
  split; [exact E|]. split.
  - rewrite (run_run turns s _ H).
    rewrite (run_run (turns ++ rest) s IndexError); now rewrite E.
  - now rewrite (run_run turns s _ H).
Qed.

(** A session without jokes is asked for one; the commands that follow
    are never heard. *)
Lemma run_stops_at_first_error_witness :
  run [joke_turn 1; exit_turn 2; joke_turn 3] jokeless_session
  = run [joke_turn 1] jokeless_session
  /\ last (trace_of (run [joke_turn 1] jokeless_session)) (Say "")
     = Say shutdown_notice.
Proof.
  destruct (run_stops_at_first_error [joke_turn 1]
              [exit_turn 2; joke_turn 3] jokeless_session eq_refl)
    as (_ & E & R).
  split; [exact E|]. rewrite R. reflexivity.
Defined.

(** ** What a run never changes, and never does *)

(** X9. No method assigns the timeout, the configuration or the response
    catalogue after construction: they are the same after any command,
    any turn and any run, whatever is heard and whether or not an
    exception ends it. *)
Theorem settings_are_never_changed :
  (forall env q s, settings_kept s (state_of (process_command env q s)))
  /\ (forall h clock s,
        settings_kept s (state_of (listen_for_wake_word h clock s)))
  /\ (forall env s, settings_kept s (state_of (tick env s)))
  /\ (forall turns s, settings_kept s (state_of (run turns s))).
Proof.
  split; [intros env q s; apply process_command_frame|].
  split.
  { intros h clock s. rewrite listen_for_wake_word_run.
    unfold wake_poll, after_timeout_test, settings_kept.
    destruct h as [| | |text]; cbn; auto.
    - destruct (timed_out _ _); auto.
    - destruct (contains _ _); cbn; auto. destruct (timed_out _ _); auto. }
  split; [intros env s; apply tick_frame|].
  intros turns s.
  destruct (loop_outcome turns s) as [[H|H] _];
    rewrite (run_run turns s _ H); apply loop_frame.
Qed.

Lemma handler_no_timeout_print (env : CommandEnv) (i : Intent)
    (s : VoiceAssistant) :
  filter (is_print "Session timed out") (trace_of (handler env i s)) = [].
Proof.
  destruct s as [w l a t c [g j q p u]].
  destruct i; unfold_methods; rewrite ?listen_for_command_run;
    handler_cases env; reflexivity.
Qed.

Lemma tick_no_timeout_print (env : TickEnv) (s : VoiceAssistant) :
  filter (is_print "Session timed out") (trace_of (tick env s)) = [].
Proof.
  rewrite tick_run.
  assert (W : filter (is_print "Session timed out") (wake_half_events env s)
              = []).
  { unfold wake_half_events. destruct (is_active s) eqn:Ha; [reflexivity|].
    destruct (after_timeout_test_idle (wake_now env) s Ha) as [_ Ee].
    unfold wake_poll. rewrite Ee.
    destruct (wake_heard env) as [| | |text]; try reflexivity.
    now destruct (contains _ _). }
  assert (C : filter (is_print "Session timed out")
                (command_events (command_heard env)) = [])
    by now destruct (command_heard env).
  destruct (is_active _); [|exact W].
  rewrite command_half_run.
  unfold trace_of at 1. cbn [snd]. rewrite filter_app, W. cbn [app].
  destruct (truthy _); unfold trace_of at 1; cbn [snd]; [|exact C].
  rewrite filter_app, C, process_command_run. cbn [app].
  unfold trace_of at 1. cbn [snd].
  rewrite filter_app, handler_no_timeout_print, app_nil_r.
  unfold log_events. destruct (log_commands _); [destruct (log_sink _)|];
    reflexivity.
Qed.

(** X10. The timeout branch of [listen_for_wake_word] is dead code in
    [run]: whatever the turns hear and whatever the clock reads, from
    any session, the line "Session timed out" that opens the branch is
    never printed. *)
Theorem run_never_takes_the_timeout_branch (turns : list TickEnv)
    (s : VoiceAssistant) :
  count_events (is_print "Session timed out") (trace_of (loop turns s)) = 0
  /\ count_events (is_print "Session timed out") (trace_of (run turns s)) = 0.
Proof.
  assert (L : forall turns s,
             filter (is_print "Session timed out") (trace_of (loop turns s))
             = []).
  { clear. induction turns as [|env rest IH]; intros s; [reflexivity|].
    rewrite loop_cons. pose proof (tick_no_timeout_print env s) as T.
    destruct (tick env s) as [[[u|e] s1] tr1];
      unfold trace_of in *; cbn [snd] in *; [|exact T].
    now rewrite filter_app, T, IH. }
  unfold count_events. split; [now rewrite L|].
  destruct (loop_outcome turns s) as [[H|H] _];
    rewrite (run_run turns s _ H); unfold trace_of at 1; cbn [snd filter];
    now rewrite filter_app, L.
Qed.

(** ** An empty wake word *)

Lemma contains_empty (t : string) : contains "" t = true.
Proof. now destruct t. Qed.

Lemma lower_empty_iff (w : string) : lower w = "" <-> w = "".
Proof. destruct w; cbn; split; auto; discriminate. Qed.

Lemma tick_wake_word (env : TickEnv) (s : VoiceAssistant) :
  wake_word (state_of (tick env s)) = wake_word s
  \/ exists reply, reply <> ""
                   /\ wake_word (state_of (tick env s)) = lower reply.
Proof.
  rewrite tick_run.
  destruct (after_wake_half_frame env s) as (_ & Hw).
  set (s1 := after_wake_half env s) in *.
  destruct (is_active s1); [|now left].
  rewrite command_half_run.
  destruct (truthy _); [|now left].
  destruct (process_command_frame (command_env env)
              (command_reply (command_heard env)) s1)
    as (_ & _ & _ & Hw' & _).
  unfold state_of in *. cbn [fst snd] in *. rewrite Hw'.
  destruct (select_intent _); rewrite ?Hw; auto.
  unfold wake_word_after_change.
  destruct (truthy _) eqn:Ht; [|left; now rewrite Hw].
  right. eexists. split; [|reflexivity].
  intros E. rewrite E in Ht. discriminate Ht.
Qed.

(** X11. With an empty wake word every transcribed utterance is taken
    for the wake word. The stored wake word is empty only if the
    constructor was given the empty string: a change never installs an
    empty word, so a non-empty wake word stays non-empty through every
    turn of the loop. *)
Theorem wake_word_stays_nonempty :
  (forall t clock s,
     wake_word s = "" ->
     outcome_of (listen_for_wake_word (Transcript t) clock s) = Returned true)
  /\ (forall w limit cfg rsp s,
        init w limit cfg rsp = Returned s -> (wake_word s = "" <-> w = ""))
  /\ (forall env s,
        wake_word s <> "" -> wake_word (state_of (tick env s)) <> "")
  /\ (forall turns s,
        wake_word s <> "" -> wake_word (state_of (loop turns s)) <> "").
Proof.
  assert (T : forall env s,
             wake_word s <> "" -> wake_word (state_of (tick env s)) <> "").
  { intros env s Hne. destruct (tick_wake_word env s) as [E | (r & Hr & E)];
      rewrite E; [exact Hne|]. now rewrite lower_empty_iff. }
  split; [|split; [|split]].
  - intros t clock s Hw. now rewrite detection_run, Hw, contains_empty.
  - intros w limit cfg rsp s H. rewrite (init_wake_word _ _ _ _ _ H).
    apply lower_empty_iff.
  - exact T.
  - induction turns as [|env rest IH]; intros s Hne; [exact Hne|].
    rewrite loop_cons. specialize (T env s Hne).
    destruct (tick env s) as [[[u|e] s1] tr1];
      unfold state_of in *; cbn [fst snd] in *; [|exact T].
    now apply IH.
Qed.

(** A session constructed with no wake word wakes on anything; the
    default one is never left without a wake word. *)
Lemma wake_word_stays_nonempty_witness :
  outcome_of (listen_for_wake_word (Transcript "good morning") 0
                (session "" 60 false 0)) = Returned true
  /\ wake_word (state_of (loop [rename_turn; silent_turn 3]
                            (session "hey assistant" 60 false 0))) <> "".
Proof.
  destruct wake_word_stays_nonempty as (Hempty & _ & _ & Hloop).
  split.
  - apply Hempty. reflexivity.
  - apply Hloop. discriminate.
Defined.

(** ** Log lines of a turn *)

(** X12. A turn of an active session writes one log line when a command
    is heard, logging is on and the file can be written, and none
    otherwise; the line carries the command itself, never what a
    sub-listen hears afterwards (the encyclopedia topic, the search
    query, the new wake word). No turn writes more than one line. *)
Theorem one_log_line_per_command (env : TickEnv) (s : VoiceAssistant) :
  (is_active s = true ->
   filter is_log (trace_of (tick env s))
   = if truthy (command_reply (command_heard env))
     then log_events (command_env env) (command_reply (command_heard env)) s
     else [])
  /\ List.length (filter is_log (trace_of (tick env s))) <= 1.
Proof.
  assert (E : filter is_log (trace_of (tick env s))
              = if is_active (after_wake_half env s)
                then if truthy (command_reply (command_heard env))
                     then log_events (command_env env)
                            (command_reply (command_heard env))
                            (after_wake_half env s)
                     else []
                else []).
  { rewrite tick_run. destruct (is_active _).
    - rewrite command_half_run. unfold trace_of at 1. cbn [snd].
      rewrite filter_is_log_app, wake_half_events_no_log. cbn [app].
      destruct (truthy _); unfold trace_of at 1; cbn [snd].
      + rewrite filter_is_log_app, command_events_no_log. cbn [app].
        apply process_command_frame.
      + apply command_events_no_log.
    - apply wake_half_events_no_log. }
  split.
  - intros Ha. rewrite E.
    assert (Es : after_wake_half env s = s)
      by (unfold after_wake_half; now rewrite Ha).
    now rewrite Es, Ha.
  - rewrite E. destruct (is_active _); [|cbn; lia].
    destruct (truthy _); [|cbn; lia].
    unfold log_events. destruct (log_commands _); [destruct (log_sink _)|];
      cbn; lia.
Qed.

(** A change of wake word logs the command and not the new word. *)
Lemma one_log_line_per_command_witness :
  filter is_log (trace_of (tick rename_turn
                             (session "hey assistant" 60 true 0)))
  = [LogAppend (log_line "2024-01-01 00:00:05" "change wake word")].
Proof.
  destruct (one_log_line_per_command rename_turn
              (session "hey assistant" 60 true 0)) as [H _].
  rewrite (H eq_refl). reflexivity.
Defined.

(** ** Keywords that contain another keyword *)

Lemma string_app_assoc (a b c : string) : (a ++ b) ++ c = a ++ b ++ c.
Proof. induction a as [|x a IH]; cbn; [reflexivity | now rewrite IH]. Qed.

Lemma contains_trans (a b q : string) :
  contains a b = true -> contains b q = true -> contains a q = true.
Proof.
  rewrite !contains_iff. intros (p1 & p2 & ->) (p3 & p4 & ->).
  exists (p3 ++ p1), (p2 ++ p4). now rewrite !string_app_assoc.
Qed.

Lemma redundant_keyword (long short q : string) (others : bool) :
  contains short long = true ->
  contains long q || (contains short q || others)
  = (contains short q || others).
Proof.
  intros H. destruct (contains long q) eqn:E; [|reflexivity].
  now rewrite (contains_trans short long q H E).
Qed.

(** X13. Containment is transitive, so a keyword that contains another
    keyword of its row never decides: every utterance selects the same
    intent when "goodbye", "tell me a joke" and "give me a quote" are
    dropped from the table and only "bye", "joke" and "quote" are kept. *)
Theorem longer_keywords_are_redundant :
  (forall a b q,
     contains a b = true -> contains b q = true -> contains a q = true)
  /\ (forall q, first_match reduced_table q = select_intent q).
Proof.
  split; [exact contains_trans|].
  intros q. unfold select_intent.
  cbn [intent_table reduced_table first_match row_matches existsb].
  rewrite (redundant_keyword "goodbye" "bye" q false eq_refl).
  rewrite (redundant_keyword "tell me a joke" "joke" q false eq_refl).
  rewrite (redundant_keyword "give me a quote" "quote" q false eq_refl).
  reflexivity.
Qed.

(** "goodbye" is heard as "bye". *)
Lemma longer_keywords_are_redundant_witness :
  contains "bye" "well goodbye then" = true.
Proof.
  destruct longer_keywords_are_redundant as [H _].
  apply (H "bye" "goodbye" "well goodbye then"); reflexivity.
Defined.


(** ** The response catalogue *)

Lemma nonempty_returns_true (env : CommandEnv) (q : string)
    (s : VoiceAssistant) :
  categories_nonempty (responses s) ->
  outcome_of (process_command env q s) = Returned true.
Proof.
  intros (Hg & Hj & Hq & Hp & Hu). rewrite process_command_outcome.
  destruct (select_intent q); cbn [pool_of]; try reflexivity.
  - now destruct (greetings _).
  - now destruct (jokes _).
  - now destruct (quotes _).
  - now destruct (preferences _).
  - now destruct (unknown_command _).
Qed.

Lemma default_responses_nonempty : categories_nonempty default_responses.
Proof. repeat split; discriminate. Qed.

Lemma init_responses (w : string) (limit : Z) (cfg : FileSource Config)
    (rsp : FileSource Responses) (s : VoiceAssistant) :
  init w limit cfg rsp = Returned s ->
  _load_responses rsp = Returned (responses s).
Proof.
  unfold init. destruct (_load_config cfg); [|discriminate].
  destruct (_load_responses rsp); [|discriminate].
  now intros [= <-].
Qed.

(** X14. A responses file that is missing, or whose text is not JSON,
    yields the built-in catalogue, whose categories hold 3, 5, 6, 3 and 3
    lines; a file that cannot be opened or decoded raises; a document
    that parses is taken as it is, without being completed from the
    defaults. An assistant constructed without a usable responses file
    therefore returns [True] on every command. *)
Theorem load_responses_fallback :
  (forall src : FileSource Responses,
     src = Missing \/ src = Malformed ->
     _load_responses src = Returned default_responses)
  /\ map (fun category => List.length (category default_responses))
       [greetings; jokes; quotes; preferences; unknown_command]
     = [3; 5; 6; 3; 3]
  /\ _load_responses Unreadable = Raised PermissionError
  /\ _load_responses Undecodable = Raised UnicodeDecodeError
  /\ (forall doc, _load_responses (Document doc) = Returned doc)
  /\ (forall w limit cfg src s env q,
        src = Missing \/ src = Malformed ->
        init w limit cfg src = Returned s ->
        responses s = default_responses
        /\ outcome_of (process_command env q s) = Returned true).
Proof.
  split; [intros src [-> | ->]; reflexivity|].
  repeat split.
  - pose proof (init_responses _ _ _ _ _ H0) as E.
    destruct H as [-> | ->]; now injection E as <-.
  - apply nonempty_returns_true.
    pose proof (init_responses _ _ _ _ _ H0) as E.
    assert (R : responses s = default_responses)
      by (destruct H as [-> | ->]; now injection E as <-).
    rewrite R. apply default_responses_nonempty.
Qed.

(** The assistant of [main] without any file, asked for a quote. *)
Lemma load_responses_fallback_witness :
  outcome_of (process_command (quiet_world 5) "give me a quote"
                (session "hey assistant" 60 false 0)) = Returned true.
Proof.
  destruct load_responses_fallback as (_ & _ & _ & _ & _ & H).
  apply (H "hey assistant" 60%Z Missing Malformed
           (session "hey assistant" 60 false 0) (quiet_world 5)
           "give me a quote").
  - right. reflexivity.
  - reflexivity.
Defined.

(** ** The program as a whole *)

Lemma run_last_event (turns : list TickEnv) (s : VoiceAssistant) (e : Exn) :
  e = KeyboardInterrupt \/ e = IndexError ->
  outcome_of (loop turns s) = Raised e ->
  last (trace_of (run turns s)) (Say "")
  = match e with
    | KeyboardInterrupt => Say "Goodbye!"
    | _ => Say shutdown_notice
    end.
Proof.
  intros He H. rewrite (run_run turns s e H).
  unfold trace_of at 1. cbn [snd].
  change (Say (announcement (wake_word s))
          :: (trace_of (loop turns s) ++ closing_events e)%list)
    with (((Say (announcement (wake_word s)) :: trace_of (loop turns s))
           ++ closing_events e)%list).
  destruct He as [-> | ->]; cbn [closing_events].
  - change [Print "Program terminated by user"; Say "Goodbye!"]
      with ([Print "Program terminated by user"] ++ [Say "Goodbye!"])%list.
    now rewrite app_assoc, last_last.
  - change [PrintError IndexError; Say shutdown_notice]
      with ([PrintError IndexError] ++ [Say shutdown_notice])%list.
    now rewrite app_assoc, last_last.
Qed.

Lemma init_cases (w : string) (limit : Z) (cfg : FileSource Config)
    (rsp : FileSource Responses) :
  if loadable cfg && loadable rsp
  then exists s, init w limit cfg rsp = Returned s
                 /\ wake_word s = lower w
                 /\ timeout s = limit
                 /\ is_active s = false
                 /\ last_activation_time s = 0%Z
  else exists e, init w limit cfg rsp = Raised e
                 /\ (e = PermissionError \/ e = UnicodeDecodeError).
Proof.
  destruct cfg, rsp; cbn; eauto 10.
Qed.

(** X15. [main] either fails in the constructor, before anything is said,
    exactly when one of the two files exists but cannot be opened or
    decoded, and then with [PermissionError] or [UnicodeDecodeError]; or
    it constructs an idle assistant with wake word "hey assistant" and
    limit 60, announces it, runs, and returns after a last spoken
    "Goodbye!" or shutdown notice. Without a usable responses file the
    last words are always "Goodbye!". *)
Theorem main_outcomes (cfg : FileSource Config) (rsp : FileSource Responses)
    (turns : list TickEnv) :
  (loadable cfg && loadable rsp = false ->
   exists e, main cfg rsp turns = (Raised e, [])
             /\ (e = PermissionError \/ e = UnicodeDecodeError))
  /\ (loadable cfg && loadable rsp = true ->
      fst (main cfg rsp turns) = Returned tt
      /\ hd_error (snd (main cfg rsp turns))
         = Some (Say (announcement "hey assistant"))
      /\ (last (snd (main cfg rsp turns)) (Say "") = Say "Goodbye!"
          \/ last (snd (main cfg rsp turns)) (Say "") = Say shutdown_notice))
  /\ (loadable cfg = true ->
      rsp = Missing \/ rsp = Malformed ->
      last (snd (main cfg rsp turns)) (Say "") = Say "Goodbye!").
Proof.
  pose proof (init_cases "hey assistant" 60 cfg rsp) as I.
  unfold main.
  split; [|split].
  - intros H. rewrite H in I. destruct I as (e & -> & He). eauto.
  - intros H. rewrite H in I. destruct I as (s & -> & Hw & _).
    cbn [fst snd].
    destruct (loop_outcome turns s) as [[Ho|Ho] _].
    + rewrite (run_last_event turns s _ (or_introl eq_refl) Ho).
      rewrite (run_run turns s _ Ho), Hw. cbn. auto.
    + rewrite (run_last_event turns s _ (or_intror eq_refl) Ho).
      rewrite (run_run turns s _ Ho), Hw. cbn. auto.
  - intros Hc Hr.
    assert (H : loadable cfg && loadable rsp = true)
      by (rewrite Hc; destruct Hr as [-> | ->]; reflexivity).
    rewrite H in I. destruct I as (s & E & _). rewrite E.
    cbn [fst snd].
    pose proof (init_responses _ _ _ _ _ E) as R.
    assert (N : categories_nonempty (responses s)).
    { destruct Hr as [-> | ->]; injection R as <-;
        apply default_responses_nonempty. }
    destruct (loop_outcome turns s) as [_ Ho].
    exact (run_last_event turns s _ (or_introl eq_refl) (Ho N)).
Qed.

(** Without files: announcement first, "Goodbye!" last. With a
    configuration file that cannot be read: nothing is said. *)
Lemma main_outcomes_witness :
  last (snd (main Missing Missing [waking_turn 1 (Transcript "Tell me a joke");
                                  exit_turn 2])) (Say "")
  = Say "Goodbye!"
  /\ exists e, main Unreadable Missing [silent_turn 1] = (Raised e, []).
Proof.
  split.
  - apply (main_outcomes Missing Missing); [reflexivity | now left].
  - destruct (main_outcomes Unreadable Missing [silent_turn 1])
      as (H & _).
    destruct (H eq_refl) as (e & E & _). now exists e.
Defined.

(** ** One poll for the wake word *)

(** X16. [listen_for_wake_word] never raises: it returns [True] exactly
    when the capture is a transcript containing the wake word, and
    [False] for silence, noise, an unavailable service and other words.
    It never activates a session; a poll that detects the wake word, and
    any poll of an idle session, changes nothing and speaks nothing; no
    poll speaks more than once. *)
Theorem wake_poll_is_a_query (h : Heard) (clock : Z) (s : VoiceAssistant) :
  let r := listen_for_wake_word h clock s in
  outcome_of r = Returned (wake_word_heard (wake_word s) h)
  /\ (is_active (state_of r) = true -> is_active s = true)
  /\ (wake_word_heard (wake_word s) h = true ->
      state_of r = s /\ filter is_speech (trace_of r) = [])
  /\ (is_active s = false ->
      state_of r = s /\ filter is_speech (trace_of r) = [])
  /\ List.length (filter is_speech (trace_of r)) <= 1.
Proof.
  cbn zeta. rewrite listen_for_wake_word_run.
  unfold wake_poll, wake_word_heard, after_timeout_test, timeout_events,
    timed_out.
  destruct h as [| | |text]; [| | |destruct (contains _ (lower text))];
    destruct (is_active s) eqn:Ha;
    try match goal with
        | |- context [(?a <? ?b)%Z] => destruct (a <? b)%Z
        end;
    cbn; repeat split; intros; auto; congruence.
Qed.

(** An idle session polled long after its last activation. *)
Lemma wake_poll_is_a_query_witness :
  state_of (listen_for_wake_word (Transcript "good morning") 5000
              (session "hey assistant" 60 false 0))
  = session "hey assistant" 60 false 0.
Proof.
  destruct (wake_poll_is_a_query (Transcript "good morning") 5000
              (session "hey assistant" 60 false 0))
    as (_ & _ & _ & H & _).
  exact (proj1 (H eq_refl)).
Defined.
